(** * experiment_summary.py: a shallow embedding and its properties

    The script queries the Entrez search and summary endpoints, pulls a fixed
    set of fields out of the nested JSON answers and writes one or two CSV
    files per experiment identifier.

    Modelling choices, all taken from the way the script is written:
    - a decoded JSON answer is a value of [json]; a Python [dict] is an
      association list in insertion order (the order decides the columns of
      a data frame), looked up by its first binding;
    - a Python string is a [string], its characters the characters of that
      type;
    - a Python exception is a value of [exn], and a computation that may
      raise returns a [result];
    - the network, the summary that [parse_sra_summary] mutates and the file
      system are threaded explicitly through a state-and-exception monad;
    - the remote service, the XML parser and the text Python prints for a
      value that is not a string are not part of the script: they are the
      variables of the section [Script]. *)

From stdpp Require Import base option list strings gmap.
From Stdlib Require Import ZArith Lia.

Set Warnings "-register-all".
Open Scope string_scope.
Open Scope list_scope.

(** ** JSON values and Python exceptions *)

Inductive json : Type :=
| JNull
| JBool (b : bool)
| JNum (n : Z)
| JFloat (literal : string)
| JStr (s : string)
| JList (l : list json)
| JDict (d : list (string * json)).

Inductive exn : Type :=
| KeyError (key : json)
| TypeError
| IndexError
| AttributeError
| JSONDecodeError
| ExpatError
| ConnectionError
| OSError.

Inductive result (A : Type) : Type :=
| Ok (a : A)
| Raise (e : exn).
Arguments Ok {A} a.
Arguments Raise {A} e.

#[global] Instance result_ret : MRet result := fun A a => Ok a.
#[global] Instance result_bind : MBind result :=
  fun A B f m => match m with Ok a => f a | Raise e => Raise e end.

#[global] Instance result_fmap : FMap result :=
  fun A B f m => match m with Ok a => Ok (f a) | Raise e => Raise e end.

Definition raises {A} (r : result A) : Prop := exists e, r = Raise e.

(** State and exceptions: the state reached when an exception is raised is
    kept, as a mutated Python object keeps its mutations. *)
Definition stateE (S A : Type) : Type := S -> result A * S.

#[global] Instance stateE_ret S : MRet (stateE S) := fun A a s => (Ok a, s).
#[global] Instance stateE_bind S : MBind (stateE S) :=
  fun A B f m s =>
    match m s with
    | (Ok a, s') => f a s'
    | (Raise e, s') => (Raise e, s')
    end.

Definition lift {S A} (r : result A) : stateE S A := fun s => (r, s).

(** ** Python dictionaries *)

Section Dict.
Context {V : Type}.

Fixpoint dict_get (k : string) (d : list (string * V)) : option V :=
  match d with
  | [] => None
  | (k', v) :: rest => if String.eqb k k' then Some v else dict_get k rest
  end.

(** [d[k] = v]: an existing key keeps its place, a new key goes last. *)
Fixpoint dict_set (k : string) (v : V) (d : list (string * V)) : list (string * V) :=
  match d with
  | [] => [(k, v)]
  | (k', v') :: rest =>
      if String.eqb k k' then (k', v) :: rest else (k', v') :: dict_set k v rest
  end.

Definition dict_keys (d : list (string * V)) : list string := map fst d.

(** [k in d] *)
Definition dict_has (k : string) (d : list (string * V)) : bool :=
  match dict_get k d with Some _ => true | None => false end.
End Dict.

(** ** Python operations on JSON values *)

Fixpoint chars (s : string) : list string :=
  match s with
  | EmptyString => []
  | String c rest => String c EmptyString :: chars rest
  end.

(** The position that index [i] names in a sequence of [len] items: negative
    indices count from the end. *)
Definition position (len : nat) (i : Z) : option nat :=
  let j := (if i <? 0 then i + Z.of_nat len else i)%Z in
  if (j <? 0)%Z then None
  else if (j <? Z.of_nat len)%Z then Some (Z.to_nat j) else None.

Definition seq_index {A} (l : list A) (i : Z) : result A :=
  match position (length l) i ≫= fun n => l !! n with
  | Some x => Ok x
  | None => Raise IndexError
  end.

(** A Boolean used as an index is the integer 0 or 1. *)
Definition int_of_bool (b : bool) : Z := if b then 1%Z else 0%Z.

(** [c[k]].  The keys of a decoded JSON object are strings, so a key that is
    hashable but not a string is never found; a list or a dict used as a key
    is unhashable. *)
Definition getitem (c k : json) : result json :=
  match c with
  | JDict d =>
      match k with
      | JStr s => match dict_get s d with Some v => Ok v | None => Raise (KeyError k) end
      | JList _ | JDict _ => Raise TypeError
      | _ => Raise (KeyError k)
      end
  | JList l =>
      match k with
      | JNum i => seq_index l i
      | JBool b => seq_index l (int_of_bool b)
      | _ => Raise TypeError
      end
  | JStr s =>
      match k with
      | JNum i => JStr <$> seq_index (chars s) i
      | JBool b => JStr <$> seq_index (chars s) (int_of_bool b)
      | _ => Raise TypeError
      end
  | _ => Raise TypeError
  end.

(** [c[k] = v] on the object [c], as the new value of [c]. *)
Definition setitem (c : json) (k : string) (v : json) : result json :=
  match c with
  | JDict d => Ok (JDict (dict_set k v d))
  | _ => Raise TypeError
  end.

(** The container [c] once the object it holds under [k] has become [v]. *)
Definition with_item (c k v : json) : json :=
  match c, k with
  | JDict d, JStr u => JDict (dict_set u v d)
  | JList l, JNum i =>
      match position (length l) i with Some n => JList (<[n := v]> l) | None => c end
  | JList l, JBool b =>
      match position (length l) (int_of_bool b) with
      | Some n => JList (<[n := v]> l)
      | None => c
      end
  | _, _ => c
  end.

(** [for x in v]: the elements of a list, the characters of a string, the
    keys of a dict; anything else is not iterable. *)
Definition py_iter (v : json) : result (list json) :=
  match v with
  | JList l => Ok l
  | JStr s => Ok (map JStr (chars s))
  | JDict d => Ok (map JStr (dict_keys d))
  | _ => Raise TypeError
  end.

Fixpoint join_strs (sep : string) (l : list string) : string :=
  match l with
  | [] => ""
  | [s] => s
  | s :: rest => s +:+ sep +:+ join_strs sep rest
  end.

Fixpoint all_strs (l : list json) : result (list string) :=
  match l with
  | [] => Ok []
  | JStr s :: rest => ss ← all_strs rest; mret (s :: ss)
  | _ :: _ => Raise TypeError
  end.

(** [sep.join(v)] *)
Definition str_join (sep : string) (v : json) : result string :=
  items ← py_iter v;
  ss ← all_strs items;
  mret (join_strs sep ss).

(** [v == s] for a string literal [s] *)
Definition eq_str (v : json) (s : string) : bool :=
  match v with
  | JStr t => String.eqb t s
  | _ => false
  end.

Definition is_nonempty {A} (l : list A) : bool :=
  match l with [] => false | _ :: _ => true end.

(** A [for] loop whose body appends one item to [acc] or raises. *)
Fixpoint for_append {A B} (body : A -> result B) (l : list A) (acc : list B)
  : result (list B) :=
  match l with
  | [] => Ok acc
  | x :: rest => y ← body x; for_append body rest (acc ++ [y])
  end.

(** ** The part of pandas the script uses *)

(** A record handed to [pd.DataFrame]: a dict from column name to value. *)
Definition record : Type := list (string * json).

(** A cell of a frame.  pandas does not store the value it is given as it
    is: it converts every column to a common dtype (an integer next to a
    missing value becomes a float, a missing value becomes NaN, and so on,
    with the version of pandas).  That conversion is pandas' own and is not
    computed here.  A cell records what decides it: the value it was built
    from ([None] when the record has no such key) and the values of the
    whole column. *)
Record cell : Type := mkCell {
  column_values : list (option json);
  given : option json
}.

(** A frame: its column labels and, per row, one cell per column.  The row
    labels are the default ones, 0, 1, 2, ... *)
Record DataFrame : Type := mkFrame {
  columns : list string;
  data : list (list cell)
}.

Definition add_key (cols : list string) (k : string) : list string :=
  if existsb (String.eqb k) cols then cols else cols ++ [k].

(** The columns of a frame built from records: the keys of the records, each
    at its first appearance. *)
Definition union_keys (records : list record) : list string :=
  fold_left (fun cols r => fold_left add_key (dict_keys r) cols) records [].

(** The values of the records under the key [c], one per record. *)
Definition column_of (records : list record) (c : string) : list (option json) :=
  map (dict_get c) records.

(** [pd.DataFrame(records)]: one row per record, in the order of the
    records, and in each row one cell per column, built from the value the
    record has under the label of the column. *)
Definition pd_DataFrame (records : list record) : DataFrame :=
  let cols := union_keys records in
  {| columns := cols;
     data := map (fun r =>
                    map (fun c => {| column_values := column_of records c;
                                     given := dict_get c r |}) cols)
                 records |}.

(** A field of a CSV line: a row label or a cell. *)
Inductive csv_field : Type :=
| FLabel (i : nat)
| FCell (c : cell).

(** A CSV file as a table of fields; the quoting of the text is not
    modelled. *)
Record csv_file : Type := mkCsv {
  header : list string;
  lines : list (list csv_field)
}.

(** [df.to_csv(path)] with its defaults ([header=True], [index=True],
    [index_label=None]): the row labels are written as a first column whose
    header is empty. *)
Definition csv_of_frame (df : DataFrame) : csv_file :=
  {| header := "" :: columns df;
     lines := imap (fun i row => FLabel i :: map FCell row) (data df) |}.

(** The directories that exist and the CSV files written so far.  Paths are
    compared as they are written. *)
Record filesystem : Type := mkFs {
  dirs : gset string;
  files : gmap string csv_file
}.

Definition slash : Ascii.ascii := Ascii.ascii_of_nat 47.

Fixpoint has_slash (p : string) : bool :=
  match p with
  | EmptyString => false
  | String c rest => if Ascii.eqb c slash then true else has_slash rest
  end.

(** The text before the last slash; empty when there is none. *)
Fixpoint dirname (p : string) : string :=
  match p with
  | EmptyString => ""
  | String c rest => if has_slash rest then String c (dirname rest) else ""
  end.

(** Writing a file needs its directory; the current directory exists. *)
Definition to_csv (df : DataFrame) (path : string) : stateE filesystem unit :=
  fun fs =>
    if bool_decide (dirname path = "" \/ dirname path ∈ dirs fs)
    then (Ok tt, {| dirs := dirs fs; files := <[path := csv_of_frame df]> (files fs) |})
    else (Raise OSError, fs).

(** ** The script's constants *)

Definition GSE_DB_NAME : string := "gds".
Definition SRA_DB_NAME : string := "sra".

(** [ENTREZ_SEARCH_URL.format(db_name=..., search_term=...)] *)
Definition ENTREZ_SEARCH_URL (db_name search_term : string) : string :=
  "https://eutils.ncbi.nlm.nih.gov/entrez/eutils/esearch.fcgi?db=" +:+ db_name
  +:+ "&term=" +:+ search_term +:+ "&retmode=json&retmax=1000".

(** [ENTREZ_SUMMARY_URL.format(db_name=..., ids=...)] *)
Definition ENTREZ_SUMMARY_URL (db_name ids : string) : string :=
  "https://eutils.ncbi.nlm.nih.gov/entrez/eutils/esummary.fcgi?db=" +:+ db_name
  +:+ "&id=" +:+ ids +:+ "&retmode=json".

(** [MICROARRAY_PATH.format(gse_id=...)] *)
Definition MICROARRAY_PATH (gse_id : string) : string :=
  "results/microarray/" +:+ gse_id +:+ "_experiment_summary.csv".

(** [RNASEQ_PATH.format(gse_id=...)] *)
Definition RNASEQ_PATH (gse_id : string) : string :=
  "results/rnaseq/" +:+ gse_id +:+ "_rnaseq.csv".

(** ** Primary-record extraction and cross-reference discovery *)

(** The body of the loop of [parse_gse_summary]: the keyword arguments of
    [dict(...)] are evaluated from left to right. *)
Definition gse_row (gse_summray uid : json) : result record :=
  gpl ← (getitem gse_summray uid ≫= fun r => getitem r (JStr "gpl"));
  suppfile ← (getitem gse_summray uid ≫= fun r => getitem r (JStr "suppfile"));
  ftplink ← (getitem gse_summray uid ≫= fun r => getitem r (JStr "ftplink"));
  mret [("uid", uid); ("gpl", gpl); ("suppfile", suppfile); ("ftplink", ftplink)].

Definition parse_gse_summary (gse_summray : json) : result DataFrame :=
  uids ← (getitem gse_summray (JStr "uids") ≫= py_iter);
  parsed ← for_append (gse_row gse_summray) uids [];
  mret (pd_DataFrame parsed).

(** The loop of [find_relevant_srp]: [extrelations.extend(...)]. *)
Fixpoint extend_extrelations (gse_summary : json) (uids extrelations : list json)
  : result (list json) :=
  match uids with
  | [] => Ok extrelations
  | uid :: rest =>
      items ← (getitem gse_summary uid ≫= fun r =>
               getitem r (JStr "extrelations") ≫= py_iter);
      extend_extrelations gse_summary rest (extrelations ++ items)
  end.

(** The list comprehension of [find_relevant_srp]: the condition is
    evaluated first, the element only when it holds. *)
Fixpoint select_srp (extrelations : list json) : result (list json) :=
  match extrelations with
  | [] => Ok []
  | relation :: rest =>
      relationtype ← getitem relation (JStr "relationtype");
      if eq_str relationtype "SRA"
      then target ← getitem relation (JStr "targetobject");
           targets ← select_srp rest;
           mret (target :: targets)
      else select_srp rest
  end.

Definition find_relevant_srp (gse_summary : json) : result (list json) :=
  uids ← (getitem gse_summary (JStr "uids") ≫= py_iter);
  extrelations ← extend_extrelations gse_summary uids [];
  select_srp extrelations.

Fixpoint getpath (c : json) (keys : list json) : result json :=
  match keys with
  | [] => Ok c
  | k :: rest => v ← getitem c k; getpath v rest
  end.

(** ** HTTP *)

Record response : Type := mkResponse {
  status_code : Z;
  body : option json   (* the decoded body; [None] when it is not JSON *)
}.

(** [response.ok]: no client or server error status. *)
Definition ok (r : response) : bool :=
  negb ((400 <=? status_code r)%Z && (status_code r <? 600)%Z).

(** [response.json()] *)
Definition response_json (r : response) : result json :=
  match body r with
  | Some j => Ok j
  | None => Raise JSONDecodeError
  end.

(** What a request meets: no answer at all, or a response. *)
Inductive reply : Type :=
| NoReply
| Reply (r : response).

(** The values of the composite result: the identifier and the tables. *)
Inductive pyval : Type :=
| VStr (s : string)
| VFrame (df : DataFrame).

Section Script.

(** The remote service: its reply to a URL, given the URLs requested
    before. *)
Variable server : list string -> string -> reply.

(** [xmltodict.parse] *)
Variable xmltodict_parse : json -> result json.

(** The text Python prints for a JSON value that is not a string, and for
    a frame. *)
Variable py_repr : json -> string.
Variable frame_repr : DataFrame -> string.

(** [requests.get(url)]; the state is the list of URLs requested. *)
Definition requests_get (url : string) : stateE (list string) response :=
  fun log =>
    match server log url with
    | NoReply => (Raise ConnectionError, log ++ [url])
    | Reply r => (Ok r, log ++ [url])
    end.

Definition entrez_search (db_name term : string) : stateE (list string) json :=
  response ← requests_get (ENTREZ_SEARCH_URL db_name term);
  if ok response
  then lift (response_json response ≫= fun j =>
             getitem j (JStr "esearchresult") ≫= fun e =>
             getitem e (JStr "idlist"))
  else mret (JList []).

Definition entrez_summary (db_name : string) (ids : json) : stateE (list string) json :=
  joined ← lift (str_join "," ids);
  response ← requests_get (ENTREZ_SUMMARY_URL db_name joined);
  if ok response
  then lift (response_json response ≫= fun j => getitem j (JStr "result"))
  else mret (JDict []).

Definition sum_GSE (gse_id : string) : stateE (list string) json :=
  let query := gse_id +:+ "+AND+gse[ETYP]" in
  ids ← entrez_search GSE_DB_NAME query;
  summary ← entrez_summary GSE_DB_NAME ids;
  mret summary.

(** ** Sequencing-record extraction *)

(** The value interpolated in an f-string. *)
Definition format_value (v : json) : string :=
  match v with
  | JStr s => s
  | _ => py_repr v
  end.

(** [sra_summary[uid][k] = v]: the record found under [uid] is updated in
    place.  The records of a decoded JSON answer are distinct objects, so
    no other entry changes. *)
Definition setitem_at (uid : json) (k : string) (v : json) : stateE json unit :=
  fun sra_summary =>
    match getitem sra_summary uid ≫= fun r => setitem r k v with
    | Raise e => (Raise e, sra_summary)
    | Ok r' => (Ok tt, with_item sra_summary uid r')
    end.

(** An expression evaluated on the current summary. *)
Definition reading {A} (f : json -> result A) : stateE json A :=
  fun sra_summary => (f sra_summary, sra_summary).

(** The dict of one row: the sixteen lookups, from left to right. *)
Definition sra_row (uid sra_summary : json) : result record :=
  let at_ path := getpath sra_summary (uid :: map JStr path) in
  run_id ← at_ ["runs"; "Run"; "@acc"];
  total_spots ← at_ ["expxml"; "Summary"; "Statistics"; "@total_spots"];
  total_bases ← at_ ["expxml"; "Summary"; "Statistics"; "@total_bases"];
  total_size ← at_ ["expxml"; "Summary"; "Statistics"; "@total_size"];
  experiment ← at_ ["expxml"; "Experiment"; "@acc"];
  platform ← at_ ["expxml"; "Summary"; "Platform"; "#text"];
  model ← at_ ["expxml"; "Summary"; "Platform"; "@instrument_model"];
  tax_id ← at_ ["expxml"; "Organism"; "@taxid"];
  sample ← at_ ["expxml"; "Sample"; "@acc"];
  library_strategy ← at_ ["expxml"; "Library_descriptor"; "LIBRARY_STRATEGY"];
  library_selection ← at_ ["expxml"; "Library_descriptor"; "LIBRARY_SELECTION"];
  library_source ← at_ ["expxml"; "Library_descriptor"; "LIBRARY_SOURCE"];
  bio_project ← at_ ["expxml"; "Bioproject"];
  bio_sample ← at_ ["expxml"; "Biosample"];
  sra_study ← at_ ["expxml"; "Study"; "@acc"];
  sra_id ← at_ ["expxml"; "Submitter"; "@acc"];
  mret [("uid", uid); ("run_id", run_id); ("total_spots", total_spots);
        ("total_bases", total_bases); ("total_size", total_size);
        ("experiment", experiment); ("platform", platform); ("model", model);
        ("tax_id", tax_id); ("sample", sample);
        ("library_strategy", library_strategy);
        ("library_selection", library_selection);
        ("library_source", library_source); ("bio_project", bio_project);
        ("bio_sample", bio_sample); ("sra_study", sra_study); ("sra_id", sra_id)].

(** The body of the loop of [parse_sra_summary].  In an assignment the
    right-hand side is evaluated before the target. *)
Definition sra_step (uid : json) : stateE json record :=
  expxml ← reading (fun s => getpath s [uid; JStr "expxml"]);
  tree ← lift (xmltodict_parse (JStr ("<root>" +:+ format_value expxml +:+ "</root>"))
               ≫= fun t => getitem t (JStr "root"));
  _ ← setitem_at uid "expxml" tree;
  runs ← reading (fun s => getpath s [uid; JStr "runs"]);
  run_tree ← lift (xmltodict_parse runs);
  _ ← setitem_at uid "runs" run_tree;
  reading (sra_row uid).

Fixpoint sra_loop (uids : list json) (parsed : list record)
  : stateE json (list record) :=
  match uids with
  | [] => mret parsed
  | uid :: rest => row ← sra_step uid; sra_loop rest (parsed ++ [row])
  end.

(** The second component is the caller's summary after the call. *)
Definition parse_sra_summary : stateE json DataFrame :=
  uids ← reading (fun s => getitem s (JStr "uids") ≫= py_iter);
  parsed ← sra_loop uids [];
  mret (pd_DataFrame parsed).

(** ** The pipeline and the writer *)

Definition experiment_summary (gse_id : string)
  : stateE (list string) (list (string * pyval)) :=
  let output := [("gse_id", VStr gse_id)] in
  gse_summary ← sum_GSE gse_id;
  microarray ← lift (parse_gse_summary gse_summary);
  let output := dict_set "microarray" (VFrame microarray) output in
  relevant_srp_ids ← lift (find_relevant_srp gse_summary);
  if is_nonempty relevant_srp_ids
  then term ← lift (str_join "+OR+" (JList relevant_srp_ids));
       sra_ids ← entrez_search SRA_DB_NAME term;
       sra_summary ← entrez_summary SRA_DB_NAME sra_ids;
       rnaseq ← lift (fst (parse_sra_summary sra_summary));
       mret (dict_set "rnaseq" (VFrame rnaseq) output)
  else mret output.

(** [d[k]] on the composite result *)
Definition lookup_key (k : string) (d : list (string * pyval)) : result pyval :=
  match dict_get k d with
  | Some v => Ok v
  | None => Raise (KeyError (JStr k))
  end.

(** [v.to_csv]: only a frame has the method. *)
Definition frame_of (v : pyval) : result DataFrame :=
  match v with
  | VFrame df => Ok df
  | VStr _ => Raise AttributeError
  end.

Definition format_pyval (v : pyval) : string :=
  match v with
  | VStr s => s
  | VFrame df => frame_repr df
  end.

Definition save_to_csv (experiment_summary : list (string * pyval))
  : stateE filesystem unit :=
  microarray ← lift (lookup_key "microarray" experiment_summary ≫= frame_of);
  gse_id ← lift (lookup_key "gse_id" experiment_summary);
  _ ← to_csv microarray (MICROARRAY_PATH (format_pyval gse_id));
  if dict_has "rnaseq" experiment_summary
  then rnaseq ← lift (lookup_key "rnaseq" experiment_summary ≫= frame_of);
       gse_id ← lift (lookup_key "gse_id" experiment_summary);
       to_csv rnaseq (RNASEQ_PATH (format_pyval gse_id))
  else mret tt.

End Script.

(** ** The vocabulary of the statements *)

(** A relation seen as the pair of its type label and its target.  The
    target is read only when the label is [SRA], so a relation of another
    type need not have one. *)
Definition is_relation (relation : json) (p : json * json) : Prop :=
  getitem relation (JStr "relationtype") = Ok p.1
  /\ (eq_str p.1 "SRA" = true -> getitem relation (JStr "targetobject") = Ok p.2).

(** The external relations of the record of [uid], in their order. *)
Definition relations_of (summary uid : json) (pairs : list (json * json)) : Prop :=
  exists r relations,
    getitem summary uid = Ok r
    /\ getitem r (JStr "extrelations") = Ok (JList relations)
    /\ Forall2 is_relation relations pairs.

(** The targets of the relations labelled [SRA], in order, duplicates kept. *)
Definition sra_targets (pairs : list (json * json)) : list json :=
  map snd (List.filter (fun p => eq_str p.1 "SRA") pairs).

(** The record of [uid] has the three sub-fields, with these values. *)
Definition primary_fields (summary uid gpl suppfile ftplink : json) : Prop :=
  exists r,
    getitem summary uid = Ok r
    /\ getitem r (JStr "gpl") = Ok gpl
    /\ getitem r (JStr "suppfile") = Ok suppfile
    /\ getitem r (JStr "ftplink") = Ok ftplink.

Definition primary_columns : list string := ["uid"; "gpl"; "suppfile"; "ftplink"].

Definition sequencing_columns : list string :=
  ["uid"; "run_id"; "total_spots"; "total_bases"; "total_size"; "experiment";
   "platform"; "model"; "tax_id"; "sample"; "library_strategy";
   "library_selection"; "library_source"; "bio_project"; "bio_sample";
   "sra_study"; "sra_id"].

(** The sixteen paths read by [parse_sra_summary] below the record of an
    identifier, in the order of the source. *)
Definition sra_paths : list (list string) :=
  [["runs"; "Run"; "@acc"];
   ["expxml"; "Summary"; "Statistics"; "@total_spots"];
   ["expxml"; "Summary"; "Statistics"; "@total_bases"];
   ["expxml"; "Summary"; "Statistics"; "@total_size"];
   ["expxml"; "Experiment"; "@acc"];
   ["expxml"; "Summary"; "Platform"; "#text"];
   ["expxml"; "Summary"; "Platform"; "@instrument_model"];
   ["expxml"; "Organism"; "@taxid"];
   ["expxml"; "Sample"; "@acc"];
   ["expxml"; "Library_descriptor"; "LIBRARY_STRATEGY"];
   ["expxml"; "Library_descriptor"; "LIBRARY_SELECTION"];
   ["expxml"; "Library_descriptor"; "LIBRARY_SOURCE"];
   ["expxml"; "Bioproject"];
   ["expxml"; "Biosample"];
   ["expxml"; "Study"; "@acc"];
   ["expxml"; "Submitter"; "@acc"]].

(** The two parsed trees of a record, under the keys they are stored at. *)
Definition parsed_trees (expxml runs : json) : json :=
  JDict [("expxml", expxml); ("runs", runs)].

Definition is_dict (v : json) : Prop := exists d, v = JDict d.

(** In [summary], the record of [uid] holds [expxml] and [runs] under the
    keys of these names. *)
Definition trees_at (summary uid expxml runs : json) : Prop :=
  getpath summary [uid; JStr "expxml"] = Ok expxml
  /\ getpath summary [uid; JStr "runs"] = Ok runs.

(** The tree that [parse_sra_summary] stores under [expxml] for the entry
    [x]: the fragment is wrapped in a root element, parsed, and the content
    of the root is taken. *)
Definition expxml_parse (xmltodict_parse : json -> result json)
    (py_repr : json -> string) (x : json) : result json :=
  xmltodict_parse (JStr ("<root>" +:+ format_value py_repr x +:+ "</root>"))
  ≫= fun t => getitem t (JStr "root").

(** A primary record lacks one of its three sub-fields. *)
Definition lacks_primary_field (r : json) : Prop :=
  exists k, k ∈ ["gpl"; "suppfile"; "ftplink"] /\ raises (getitem r (JStr k)).

(** The two entries of a sequencing record parse, and one of the sixteen
    paths is absent from the parsed trees. *)
Definition lacks_sequencing_path (xmltodict_parse : json -> result json)
    (py_repr : json -> string) (r : json) : Prop :=
  exists x runs tx tr path,
    getitem r (JStr "expxml") = Ok x
    /\ getitem r (JStr "runs") = Ok runs
    /\ expxml_parse xmltodict_parse py_repr x = Ok tx
    /\ xmltodict_parse runs = Ok tr
    /\ path ∈ sra_paths
    /\ raises (getpath (parsed_trees tx tr) (map JStr path)).

(** Every record has exactly the keys [ks], in this order. *)
Definition has_keys (ks : list string) (r : record) : Prop := dict_keys r = ks.

(** The file at [path] is the table [df] as [to_csv] writes it: one line per
    row, and a header made of the unnamed column of the row labels followed
    by the columns, which are [cols] unless the table has no row. *)
Definition written (fs : filesystem) (path : string) (df : DataFrame)
    (cols : list string) : Prop :=
  exists csv,
    files fs !! path = Some csv
    /\ length (lines csv) = length (data df)
    /\ header csv = "" :: (if is_nonempty (data df) then cols else [])
    /\ Forall (fun line => length line = length (header csv)) (lines csv).

(** ** Concrete services and summaries *)

Module Fixtures.

Definition relation (relationtype targetobject : string) : json :=
  JDict [("relationtype", JStr relationtype); ("targetobject", JStr targetobject)].

Definition primary_record (gpl suppfile ftplink : string) (extrelations : list json)
  : json :=
  JDict [("gpl", JStr gpl); ("suppfile", JStr suppfile); ("ftplink", JStr ftplink);
         ("extrelations", JList extrelations)].

(** One primary record with an SRA relation and a relation of another type. *)
Definition summary_sra : json :=
  JDict [("uids", JList [JStr "12345"]);
         ("12345", primary_record "570" "CEL" "ftp://geo/GSE1/"
                     [relation "SRA" "SRP999"; relation "Other" "X"])].

(** Two primary records, the second without any relation. *)
Definition summary_two : json :=
  JDict [("uids", JList [JStr "a"; JStr "b"]);
         ("a", primary_record "96" "TXT" "ftp://geo/a/" [relation "SRA" "SRP1"]);
         ("b", primary_record "97" "CEL" "ftp://geo/b/" [])].

(** A primary record without relations to the sequencing namespace. *)
Definition summary_plain : json :=
  JDict [("uids", JList [JStr "222"]);
         ("222", primary_record "571" "CEL" "ftp://geo/GSE2/" [relation "Other" "X"])].

(** A record that lacks its download link. *)
Definition summary_no_ftplink : json :=
  JDict [("uids", JList [JStr "9"]);
         ("9", JDict [("gpl", JStr "570"); ("suppfile", JStr "CEL")])].

Definition summary_empty : json := JDict [("uids", JList [])].

(** The experiment description, with or without its [Study] element. *)
Definition expxml_with (study : string) : string :=
  "<Summary><Statistics total_spots='10' total_bases='1000' total_size='300'/>"
  +:+ "<Platform instrument_model='HiSeq'>ILLUMINA</Platform></Summary>"
  +:+ "<Submitter acc='SRA1'/><Experiment acc='SRX1'/>" +:+ study
  +:+ "<Organism taxid='9606'/><Sample acc='SRS1'/>"
  +:+ "<Library_descriptor><LIBRARY_STRATEGY>RNA-Seq</LIBRARY_STRATEGY>"
  +:+ "<LIBRARY_SOURCE>TRANSCRIPTOMIC</LIBRARY_SOURCE>"
  +:+ "<LIBRARY_SELECTION>cDNA</LIBRARY_SELECTION></Library_descriptor>"
  +:+ "<Bioproject>PRJNA1</Bioproject><Biosample>SAMN1</Biosample>".

Definition expxml_tree_with (study : list (string * json)) : json :=
  JDict ([("Summary",
           JDict [("Statistics",
                   JDict [("@total_spots", JStr "10"); ("@total_bases", JStr "1000");
                          ("@total_size", JStr "300")]);
                  ("Platform",
                   JDict [("@instrument_model", JStr "HiSeq");
                          ("#text", JStr "ILLUMINA")])]);
          ("Submitter", JDict [("@acc", JStr "SRA1")]);
          ("Experiment", JDict [("@acc", JStr "SRX1")])]
         ++ study ++
         [("Organism", JDict [("@taxid", JStr "9606")]);
          ("Sample", JDict [("@acc", JStr "SRS1")]);
          ("Library_descriptor",
           JDict [("LIBRARY_STRATEGY", JStr "RNA-Seq");
                  ("LIBRARY_SOURCE", JStr "TRANSCRIPTOMIC");
                  ("LIBRARY_SELECTION", JStr "cDNA")]);
          ("Bioproject", JStr "PRJNA1");
          ("Biosample", JStr "SAMN1")]).

Definition expxml_text : string := expxml_with "<Study acc='SRP999'/>".
Definition expxml_tree : json :=
  expxml_tree_with [("Study", JDict [("@acc", JStr "SRP999")])].

Definition expxml_no_study_text : string := expxml_with "".
Definition expxml_no_study_tree : json := expxml_tree_with [].

Definition runs_text : string := "<Run acc='SRR1'/>".
Definition runs_tree : json := JDict [("Run", JDict [("@acc", JStr "SRR1")])].

(** A parser that knows the documents used here and rejects the rest. *)
Definition xml_documents : list (string * json) :=
  [("<root>" +:+ expxml_text +:+ "</root>", JDict [("root", expxml_tree)]);
   ("<root>" +:+ expxml_no_study_text +:+ "</root>", JDict [("root", expxml_no_study_tree)]);
   (runs_text, runs_tree)].

Definition xml_parser (input : json) : result json :=
  match input with
  | JStr s => match dict_get s xml_documents with
              | Some tree => Ok tree
              | None => Raise ExpatError
              end
  | _ => Raise TypeError
  end.

Definition no_repr (v : json) : string := "".
Definition no_frame_repr (df : DataFrame) : string := "".

Definition summary_runs : json :=
  JDict [("uids", JList [JStr "777"]);
         ("777", JDict [("expxml", JStr expxml_text); ("runs", JStr runs_text)])].

(** The same summary once [parse_sra_summary] has returned. *)
Definition summary_runs_parsed : json :=
  JDict [("uids", JList [JStr "777"]);
         ("777", JDict [("expxml", expxml_tree); ("runs", runs_tree)])].

Definition summary_runs_no_study : json :=
  JDict [("uids", JList [JStr "778"]);
         ("778", JDict [("expxml", JStr expxml_no_study_text); ("runs", JStr runs_text)])].

Definition found (ids : list string) : reply :=
  Reply {| status_code := 200;
           body := Some (JDict [("esearchresult",
                                 JDict [("idlist", JList (map JStr ids))])]) |}.

Definition summarized (summary : json) : reply :=
  Reply {| status_code := 200; body := Some (JDict [("result", summary)]) |}.

Definition unavailable : reply :=
  Reply {| status_code := 503; body := None |}.

(** The service: GSE1 has sequencing runs, GSE2 has none, the summary of
    GSE3 is unavailable, GSE4 matches no record, and every other request
    is answered 404. *)
Definition pages : list (string * reply) :=
  [(ENTREZ_SEARCH_URL "gds" "GSE1+AND+gse[ETYP]", found ["12345"]);
   (ENTREZ_SUMMARY_URL "gds" "12345", summarized summary_sra);
   (ENTREZ_SEARCH_URL "sra" "SRP999", found ["777"]);
   (ENTREZ_SUMMARY_URL "sra" "777", summarized summary_runs);
   (ENTREZ_SEARCH_URL "gds" "GSE2+AND+gse[ETYP]", found ["222"]);
   (ENTREZ_SUMMARY_URL "gds" "222", summarized summary_plain);
   (ENTREZ_SEARCH_URL "gds" "GSE3+AND+gse[ETYP]", found ["333"]);
   (ENTREZ_SUMMARY_URL "gds" "333", unavailable);
   (ENTREZ_SEARCH_URL "gds" "GSE4+AND+gse[ETYP]", found []);
   (ENTREZ_SUMMARY_URL "gds" "", summarized summary_empty)].

Definition service (log : list string) (url : string) : reply :=
  match dict_get url pages with
  | Some r => r
  | None => Reply {| status_code := 404; body := None |}
  end.

Definition run (gse_id : string) : result (list (string * pyval)) * list string :=
  experiment_summary service xml_parser no_repr gse_id [].

(** The composite results of three runs, and the files of the first. *)
Definition composite_of (r : result (list (string * pyval)) * list string)
  : list (string * pyval) :=
  match r with (Ok out, _) => out | (Raise _, _) => [] end.

Definition composite_gse1 : list (string * pyval) :=
  Eval vm_compute in composite_of (run "GSE1").
Definition composite_gse2 : list (string * pyval) :=
  Eval vm_compute in composite_of (run "GSE2").
Definition composite_gse4 : list (string * pyval) :=
  Eval vm_compute in composite_of (run "GSE4").

(** A file system with the two result directories and no file. *)
Definition results_dirs : filesystem :=
  {| dirs := {[ "results/microarray"; "results/rnaseq" ]}; files := ∅ |}.

Definition saved_gse1 : filesystem :=
  (save_to_csv no_frame_repr composite_gse1 results_dirs).2.

End Fixtures.

(** The cell built from [v] in a column that has no other value. *)
Definition only (v : json) : cell :=
  {| column_values := [Some v]; given := Some v |}.

(** ** The entry point *)

Section Entry.

Variable server : list string -> string -> reply.
Variable xmltodict_parse : json -> result json.
Variable py_repr : json -> string.
Variable frame_repr : DataFrame -> string.

(** [save_to_csv(experiment_summary(gse_id))]: the state is the list of URLs
    requested together with the file system; the argument is evaluated
    first, and an exception in it leaves the file system alone. *)
Definition run_and_save (gse_id : string) : stateE (list string * filesystem) unit :=
  fun w =>
    match experiment_summary server xmltodict_parse py_repr gse_id w.1 with
    | (Raise e, log') => (Raise e, (log', w.2))
    | (Ok output, log') =>
        match save_to_csv frame_repr output w.2 with
        | (r, fs') => (r, (log', fs'))
        end
    end.

(** The statements under [if __name__ == '__main__']. *)
Definition main : stateE (list string * filesystem) unit :=
  _ ← run_and_save "GSE89408";
  _ ← run_and_save "GSE59847";
  run_and_save "GSE40598".

End Entry.

(** ** More vocabulary *)

(** The sixteen columns of a sequencing row after [uid]. *)
Definition sequencing_fields : list string :=
  ["run_id"; "total_spots"; "total_bases"; "total_size"; "experiment";
   "platform"; "model"; "tax_id"; "sample"; "library_strategy";
   "library_selection"; "library_source"; "bio_project"; "bio_sample";
   "sra_study"; "sra_id"].

(** The record of [uid] holds two entries that parse, and [vals] are the
    values found at the sixteen paths of the parsed trees, in order. *)
Definition sequencing_record (xmltodict_parse : json -> result json)
    (py_repr : json -> string) (summary uid : json) (vals : list json) : Prop :=
  exists x r tx tr,
    trees_at summary uid x r
    /\ expxml_parse xmltodict_parse py_repr x = Ok tx
    /\ xmltodict_parse r = Ok tr
    /\ Forall2 (fun path v => getpath (parsed_trees tx tr) (map JStr path) = Ok v)
               sra_paths vals.

(** A relation that [find_relevant_srp] cannot read: it has no type label,
    or it is labelled [SRA] and has no target. *)
Definition unreadable_relation (relation : json) : Prop :=
  raises (getitem relation (JStr "relationtype"))
  \/ (exists ty, getitem relation (JStr "relationtype") = Ok ty
                 /\ eq_str ty "SRA" = true
                 /\ raises (getitem relation (JStr "targetobject"))).

(** The identifiers that [main] processes, in order. *)
Definition main_identifiers : list string := ["GSE89408"; "GSE59847"; "GSE40598"].

(** The files of [gse_id] hold the tables of the composite result
    [output]: the primary table is in the file of the primary path, and the
    sequencing table, when the result has one, in the file of the
    sequencing path. *)
Definition holds_tables (fs : filesystem) (gse_id : string)
    (output : list (string * pyval)) : Prop :=
  (exists microarray,
     dict_get "microarray" output = Some (VFrame microarray)
     /\ files fs !! MICROARRAY_PATH gse_id = Some (csv_of_frame microarray))
  /\ (forall v, dict_get "rnaseq" output = Some v ->
        exists rnaseq,
          v = VFrame rnaseq
          /\ files fs !! RNASEQ_PATH gse_id = Some (csv_of_frame rnaseq)).

(** The keys of a summary. *)
Definition summary_keys (summary : json) : list string :=
  match summary with
  | JDict d => dict_keys d
  | _ => []
  end.

(** The summary [d1] has the keys of [d], and every entry of [d] that is
    not a dictionary is still in [d1]. *)
Definition kept (d d1 : list (string * json)) : Prop :=
  dict_keys d1 = dict_keys d
  /\ forall k v, dict_get k d = Some v -> ~ is_dict v -> dict_get k d1 = Some v.

(** The paths that [save_to_csv] may write for a composite result. *)
Definition written_paths (frame_repr : DataFrame -> string)
    (output : list (string * pyval)) : list string :=
  match dict_get "gse_id" output with
  | Some v => [MICROARRAY_PATH (format_pyval frame_repr v);
               RNASEQ_PATH (format_pyval frame_repr v)]
  | None => []
  end.

(** ** More services and summaries *)

Module Scenarios.

(** [summary_two] with a record that [uids] does not list. *)
Definition summary_two_extra : json :=
  match Fixtures.summary_two with
  | JDict d => JDict (d ++ [("zzz", JNum 7)])
  | other => other
  end.

(** A primary summary with a relation that has no type label. *)
Definition summary_bad_relation : json :=
  JDict [("uids", JList [JStr "5"]);
         ("5", Fixtures.primary_record "570" "CEL" "ftp://geo/5/"
                 [Fixtures.relation "Other" "X";
                  JDict [("targetobject", JStr "SRP1")]])].

(** The values of the sixteen paths of [Fixtures.expxml_tree] and
    [Fixtures.runs_tree]. *)
Definition sequencing_values : list json :=
  map JStr ["SRR1"; "10"; "1000"; "300"; "SRX1"; "ILLUMINA"; "HiSeq"; "9606";
            "SRS1"; "RNA-Seq"; "cDNA"; "TRANSCRIPTOMIC"; "PRJNA1"; "SAMN1";
            "SRP999"; "SRA1"].

(** GSE1 again, with a sequencing namespace whose summaries are unavailable. *)
Definition pages_sra_down : list (string * reply) :=
  [(ENTREZ_SEARCH_URL "gds" "GSE1+AND+gse[ETYP]", Fixtures.found ["12345"]);
   (ENTREZ_SUMMARY_URL "gds" "12345", Fixtures.summarized Fixtures.summary_sra);
   (ENTREZ_SEARCH_URL "sra" "SRP999", Fixtures.found ["777"])].

Definition service_sra_down (log : list string) (url : string) : reply :=
  match dict_get url pages_sra_down with
  | Some r => r
  | None => Fixtures.unavailable
  end.

(** A service that is down. *)
Definition service_down (log : list string) (url : string) : reply :=
  Fixtures.unavailable.


(** A service for the three identifiers of [main]: the first has one
    primary record and sequencing runs, the second one primary record and no
    relation, the third matches no record. *)
Definition summary_first : json :=
  JDict [("uids", JList [JStr "1"]);
         ("1", Fixtures.primary_record "570" "CEL" "ftp://geo/GSE89408/"
                 [Fixtures.relation "SRA" "SRP999"])].

Definition summary_second : json :=
  JDict [("uids", JList [JStr "2"]);
         ("2", Fixtures.primary_record "6244" "TXT" "ftp://geo/GSE59847/" [])].

Definition pages_three : list (string * reply) :=
  [(ENTREZ_SEARCH_URL "gds" "GSE89408+AND+gse[ETYP]", Fixtures.found ["1"]);
   (ENTREZ_SUMMARY_URL "gds" "1", Fixtures.summarized summary_first);
   (ENTREZ_SEARCH_URL "sra" "SRP999", Fixtures.found ["777"]);
   (ENTREZ_SUMMARY_URL "sra" "777", Fixtures.summarized Fixtures.summary_runs);
   (ENTREZ_SEARCH_URL "gds" "GSE59847+AND+gse[ETYP]", Fixtures.found ["2"]);
   (ENTREZ_SUMMARY_URL "gds" "2", Fixtures.summarized summary_second);
   (ENTREZ_SEARCH_URL "gds" "GSE40598+AND+gse[ETYP]", Fixtures.found []);
   (ENTREZ_SUMMARY_URL "gds" "", Fixtures.summarized Fixtures.summary_empty)].

Definition service_three (log : list string) (url : string) : reply :=
  match dict_get url pages_three with
  | Some r => r
  | None => Fixtures.unavailable
  end.

(** The state after [main] has run against it, with both directories
    present. *)
Definition after_main_three : list string * filesystem :=
  (main service_three Fixtures.xml_parser Fixtures.no_repr Fixtures.no_frame_repr
     ([], Fixtures.results_dirs)).2.

End Scenarios.

(** * Properties *)

Ltac unfold_monad :=
  unfold mbind, mret, fmap, result_bind, result_ret, result_fmap,
         stateE_bind, stateE_ret, lift in *.

(** ** Dictionaries *)

Lemma dict_get_set_eq {V} (k : string) (v : V) d :
  dict_get k (dict_set k v d) = Some v.
Proof.
  induction d as [|[k' v'] d IH]; simpl.
  - by rewrite String.eqb_refl.
  - destruct (String.eqb k k') eqn:E; simpl; rewrite E; [done | exact IH].
Qed.

Lemma dict_get_set_ne {V} (k k' : string) (v : V) d :
  k <> k' -> dict_get k' (dict_set k v d) = dict_get k' d.
Proof.
  intros Hne. induction d as [|[k0 v0] d IH]; simpl.
  - destruct (String.eqb k' k) eqn:E; [|done].
    apply String.eqb_eq in E. congruence.
  - destruct (String.eqb k k0) eqn:E; simpl.
    + apply String.eqb_eq in E. subst k0.
      destruct (String.eqb k' k) eqn:E'; [|done].
      apply String.eqb_eq in E'. congruence.
    + by rewrite IH.
Qed.

Lemma getitem_dict_inv c k v :
  getitem c (JStr k) = Ok v -> exists d, c = JDict d /\ dict_get k d = Some v.
Proof.
  destruct c; simpl; try discriminate.
  destruct (dict_get k d) eqn:E; [|discriminate].
  intros [= ->]. eauto.
Qed.

(** ** Loops *)

Lemma for_append_ok {A B} (body : A -> result B) (f : A -> B) l acc :
  Forall (fun x => body x = Ok (f x)) l ->
  for_append body l acc = Ok (acc ++ map f l).
Proof.
  intros H. revert acc. induction H as [|x l Hx _ IH]; intros acc; simpl.
  - by rewrite app_nil_r.
  - rewrite Hx. unfold_monad. rewrite IH, <- app_assoc. done.
Qed.

Lemma for_append_raises {A B} (body : A -> result B) l acc x :
  x ∈ l -> raises (body x) -> raises (for_append body l acc).
Proof.
  intros Hin [e He]. revert acc.
  induction l as [|y l IH]; intros acc; [by apply elem_of_nil in Hin|].
  simpl. unfold_monad. apply elem_of_cons in Hin as [<-|Hin].
  - rewrite He. by exists e.
  - destruct (body y); [by apply IH | by eexists].
Qed.

Lemma for_append_inv {A B} (body : A -> result B) l acc out :
  for_append body l acc = Ok out ->
  exists ys, out = acc ++ ys /\ Forall2 (fun x y => body x = Ok y) l ys.
Proof.
  revert acc. induction l as [|x l IH]; intros acc; simpl.
  - intros [= <-]. exists []. by rewrite app_nil_r.
  - unfold_monad. destruct (body x) as [y|] eqn:E; [|discriminate].
    intros H. apply IH in H as (ys & -> & HF).
    exists (y :: ys). rewrite <- app_assoc. split; [done|]. by constructor.
Qed.

Lemma all_strs_map ids : all_strs (map JStr ids) = Ok ids.
Proof.
  induction ids as [|s ids IH]; simpl; [done|]. rewrite IH. done.
Qed.

(** ** Search and Summarize on a response that is not a success *)

(** C5: whatever the namespace and the term, when the response to the search
    request is not a success, [entrez_search] returns the empty list and
    raises nothing; the request is the only effect. *)
Theorem entrez_search_failure_empty
    (server : list string -> string -> reply) (db_name term : string)
    (log : list string) (r : response) :
  server log (ENTREZ_SEARCH_URL db_name term) = Reply r ->
  ok r = false ->
  entrez_search server db_name term log
  = (Ok (JList []), log ++ [ENTREZ_SEARCH_URL db_name term]).
Proof.
  intros Hreply Hok. unfold entrez_search, requests_get. unfold_monad.
  rewrite Hreply, Hok. reflexivity.
Qed.

Lemma entrez_search_failure_empty_witness :
  entrez_search Fixtures.service "gds" "GSE0" []
  = (Ok (JList []), [ENTREZ_SEARCH_URL "gds" "GSE0"]).
Proof.
  apply (entrez_search_failure_empty Fixtures.service "gds" "GSE0" []
           {| status_code := 404; body := None |}); reflexivity.
Defined.

(** C6: whatever the namespace and the list of identifiers, when the response
    to the batch summary request is not a success, [entrez_summary] returns
    the empty mapping. *)
Theorem entrez_summary_failure_empty
    (server : list string -> string -> reply) (db_name : string)
    (ids : list string) (log : list string) (r : response) :
  server log (ENTREZ_SUMMARY_URL db_name (join_strs "," ids)) = Reply r ->
  ok r = false ->
  entrez_summary server db_name (JList (map JStr ids)) log
  = (Ok (JDict []), log ++ [ENTREZ_SUMMARY_URL db_name (join_strs "," ids)]).
Proof.
  intros Hreply Hok. unfold entrez_summary, requests_get, str_join. simpl.
  unfold_monad. rewrite all_strs_map, Hreply, Hok. reflexivity.
Qed.

Lemma entrez_summary_failure_empty_witness :
  entrez_summary Fixtures.service "gds" (JList (map JStr ["333"; "334"])) []
  = (Ok (JDict []), [ENTREZ_SUMMARY_URL "gds" "333,334"]).
Proof.
  apply (entrez_summary_failure_empty Fixtures.service "gds" ["333"; "334"] []
           {| status_code := 404; body := None |}); reflexivity.
Defined.

(** ** Cross-reference discovery *)

Lemma extend_extrelations_ok summary uids rels acc :
  Forall2 (relations_of summary) uids rels ->
  exists relations,
    extend_extrelations summary uids acc = Ok (acc ++ relations)
    /\ Forall2 is_relation relations (concat rels).
Proof.
  intros H. revert acc.
  induction H as [|uid pairs uids rels (r & js & Hr & He & Hjs) _ IH]; intros acc.
  - exists []. simpl. by rewrite app_nil_r.
  - destruct (IH (acc ++ js)) as (rest & Hrest & HF).
    exists (js ++ rest). simpl. unfold_monad. rewrite Hr, He. simpl.
    rewrite Hrest, <- app_assoc. split; [done|]. by apply Forall2_app.
Qed.

Lemma select_srp_ok relations pairs :
  Forall2 is_relation relations pairs ->
  select_srp relations = Ok (sra_targets pairs).
Proof.
  induction 1 as [|relation p relations pairs [Hty Htgt] _ IH]; [done|].
  simpl. unfold_monad. rewrite Hty. unfold sra_targets. simpl.
  destruct (eq_str p.1 "SRA"); [|exact IH].
  rewrite (Htgt eq_refl), IH. reflexivity.
Qed.

(** C2: on a primary summary whose [uids] list names records that each carry
    a list of relations, [find_relevant_srp] returns exactly the targets of
    the relations labelled [SRA]: identifier order first, relation order
    within an identifier, duplicates kept, every other relation left out. *)
Theorem find_relevant_srp_spec
    (summary : json) (uids : list json) (rels : list (list (json * json))) :
  getitem summary (JStr "uids") = Ok (JList uids) ->
  Forall2 (relations_of summary) uids rels ->
  find_relevant_srp summary = Ok (sra_targets (concat rels)).
Proof.
  intros Huids Hrels. unfold find_relevant_srp. unfold_monad. rewrite Huids. simpl.
  destruct (extend_extrelations_ok summary uids rels [] Hrels) as (js & -> & HF).
  simpl. by apply select_srp_ok.
Qed.

Lemma find_relevant_srp_spec_witness :
  find_relevant_srp Fixtures.summary_sra = Ok [JStr "SRP999"].
Proof.
  apply (find_relevant_srp_spec Fixtures.summary_sra [JStr "12345"]
           [[(JStr "SRA", JStr "SRP999"); (JStr "Other", JStr "X")]]).
  - reflexivity.
  - constructor; [|constructor].
    eexists _, _. split; [reflexivity|]. split; [reflexivity|].
    repeat constructor; discriminate.
Defined.

(** ** Primary-record extraction *)

Lemma gse_row_ok summary uid gpl suppfile ftplink :
  primary_fields summary uid gpl suppfile ftplink ->
  gse_row summary uid
  = Ok [("uid", uid); ("gpl", gpl); ("suppfile", suppfile); ("ftplink", ftplink)].
Proof.
  intros (r & Hr & Hg & Hs & Hf). unfold gse_row. unfold_monad.
  rewrite Hr, Hg, Hs, Hf. reflexivity.
Qed.

Lemma gse_row_inv summary uid rec :
  gse_row summary uid = Ok rec ->
  exists gpl suppfile ftplink,
    primary_fields summary uid gpl suppfile ftplink
    /\ rec = [("uid", uid); ("gpl", gpl); ("suppfile", suppfile); ("ftplink", ftplink)].
Proof.
  unfold gse_row. unfold_monad.
  destruct (getitem summary uid) as [r|] eqn:Hr; [|discriminate].
  destruct (getitem r (JStr "gpl")) as [g|] eqn:Hg; [|discriminate].
  destruct (getitem r (JStr "suppfile")) as [sf|] eqn:Hs; [|discriminate].
  destruct (getitem r (JStr "ftplink")) as [f|] eqn:Hf; [|discriminate].
  intros [= <-]. exists g, sf, f. split; [|done]. by exists r.
Qed.

Lemma fold_keys_uniform ks (records : list record) :
  fold_left add_key ks ks = ks ->
  Forall (fun r => dict_keys r = ks) records ->
  fold_left (fun cols r => fold_left add_key (dict_keys r) cols) records ks = ks.
Proof.
  intros Hks. induction 1 as [|r rs Hr _ IH]; [done|].
  simpl. by rewrite Hr, Hks.
Qed.

(** Records that all have the keys [ks] make a frame with the columns [ks],
    unless there is no record at all. *)
Lemma union_keys_uniform ks (records : list record) :
  fold_left add_key ks [] = ks ->
  fold_left add_key ks ks = ks ->
  Forall (fun r => dict_keys r = ks) records ->
  union_keys records = if is_nonempty records then ks else [].
Proof.
  intros H0 Hks HF. destruct HF as [|r rs Hr HF]; [done|].
  unfold union_keys. simpl. rewrite Hr, H0. by apply fold_keys_uniform.
Qed.

Lemma primary_keys_uniform summary uids parsed :
  Forall2 (fun uid rec => gse_row summary uid = Ok rec) uids parsed ->
  Forall (fun r => dict_keys r = primary_columns) parsed.
Proof.
  induction 1 as [|uid rec uids parsed Hrow _ IH]; constructor; [|done].
  apply gse_row_inv in Hrow as (g & sf & f & _ & ->). reflexivity.
Qed.

Lemma parse_gse_summary_inv summary df :
  parse_gse_summary summary = Ok df ->
  exists uids parsed,
    (getitem summary (JStr "uids") ≫= py_iter) = Ok uids
    /\ Forall2 (fun uid rec => gse_row summary uid = Ok rec) uids parsed
    /\ df = pd_DataFrame parsed.
Proof.
  unfold parse_gse_summary.
  destruct (getitem summary (JStr "uids") ≫= py_iter) as [uids|] eqn:Hu;
    [|discriminate].
  change (_ ≫= _) with
    (for_append (gse_row summary) uids [] ≫= fun parsed => Ok (pd_DataFrame parsed)).
  destruct (for_append (gse_row summary) uids []) as [parsed|] eqn:Hp;
    [|discriminate].
  intros [= <-]. apply for_append_inv in Hp as (ys & -> & HF).
  exists uids, ys. done.
Qed.

(** C3: on a summary whose [uids] list names records that each have the
    sub-fields [gpl], [suppfile] and [ftplink], [parse_gse_summary] returns a
    table with one row per identifier, the rows in the order of [uids], and
    the row of an identifier is made of exactly four cells, built from the
    uid, gpl, suppfile and ftplink of that identifier, under the columns of
    these names. *)
Theorem parse_gse_summary_rows (summary : json) (uids : list json) :
  getitem summary (JStr "uids") = Ok (JList uids) ->
  Forall (fun uid => exists gpl suppfile ftplink,
            primary_fields summary uid gpl suppfile ftplink) uids ->
  exists df,
    parse_gse_summary summary = Ok df
    /\ length (data df) = length uids
    /\ forall i uid, uids !! i = Some uid ->
         exists gpl suppfile ftplink,
           primary_fields summary uid gpl suppfile ftplink
           /\ columns df = ["uid"; "gpl"; "suppfile"; "ftplink"]
           /\ map given <$> data df !! i
              = Some [Some uid; Some gpl; Some suppfile; Some ftplink].
Proof.
  intros Huids Hall.
  set (row uid := match gse_row summary uid with Ok r => r | Raise _ => [] end).
  assert (Hbody : Forall (fun uid => gse_row summary uid = Ok (row uid)) uids).
  { eapply Forall_impl; [exact Hall|]. intros uid (g & sf & f & Hf).
    unfold row. by rewrite (gse_row_ok _ _ _ _ _ Hf). }
  exists (pd_DataFrame (map row uids)). split; [|split].
  - unfold parse_gse_summary. unfold_monad. rewrite Huids. simpl.
    by rewrite (for_append_ok _ row _ _ Hbody).
  - simpl. by rewrite !length_map.
  - intros i uid Hi.
    assert (Huid : uid ∈ uids) by (apply list_elem_of_lookup; eauto).
    destruct (proj1 (Forall_forall _ _) Hall uid Huid) as (g & sf & f & Hf).
    exists g, sf, f. split; [done|].
    assert (Hcols : union_keys (map row uids) = primary_columns).
    { rewrite (union_keys_uniform primary_columns); [| done | done |].
      - destruct uids; [by apply elem_of_nil in Huid | done].
      - apply Forall_map. eapply Forall_impl; [exact Hall|].
        intros u (g' & sf' & f' & Hf'). simpl.
        unfold row. by rewrite (gse_row_ok _ _ _ _ _ Hf'). }
    unfold pd_DataFrame. cbn [columns data]. rewrite Hcols. split; [done|].
    rewrite map_map. change (map ?f uids) with (f <$> uids).
    rewrite list_lookup_fmap, Hi. cbn [fmap option_fmap option_map].
    assert (Hrow : row uid = [("uid", uid); ("gpl", g); ("suppfile", sf); ("ftplink", f)])
      by (unfold row; by rewrite (gse_row_ok _ _ _ _ _ Hf)).
    rewrite Hrow. reflexivity.
Qed.

Lemma parse_gse_summary_rows_witness :
  exists df,
    parse_gse_summary Fixtures.summary_two = Ok df
    /\ length (data df) = 2
    /\ forall i uid, [JStr "a"; JStr "b"] !! i = Some uid ->
         exists gpl suppfile ftplink,
           primary_fields Fixtures.summary_two uid gpl suppfile ftplink
           /\ columns df = ["uid"; "gpl"; "suppfile"; "ftplink"]
           /\ map given <$> data df !! i
              = Some [Some uid; Some gpl; Some suppfile; Some ftplink].
Proof.
  apply (parse_gse_summary_rows Fixtures.summary_two [JStr "a"; JStr "b"]).
  - reflexivity.
  - repeat constructor.
    + exists (JStr "96"), (JStr "TXT"), (JStr "ftp://geo/a/").
      eexists. repeat split; reflexivity.
    + exists (JStr "97"), (JStr "CEL"), (JStr "ftp://geo/b/").
      eexists. repeat split; reflexivity.
Defined.

(** ** Missing sub-fields of a primary record *)

Lemma gse_row_raises summary uid r k :
  getitem summary uid = Ok r ->
  k ∈ ["gpl"; "suppfile"; "ftplink"] ->
  raises (getitem r (JStr k)) ->
  raises (gse_row summary uid).
Proof.
  intros Hr Hk [e He]. unfold gse_row. unfold_monad. rewrite Hr.
  repeat (apply elem_of_cons in Hk as [->|Hk]); [| | |by apply elem_of_nil in Hk].
  - rewrite He. by eexists.
  - destruct (getitem r (JStr "gpl")); [|by eexists].
    rewrite He. by eexists.
  - destruct (getitem r (JStr "gpl")); [|by eexists].
    destruct (getitem r (JStr "suppfile")); [|by eexists].
    rewrite He. by eexists.
Qed.

Lemma parse_gse_summary_raises summary uids uid r k :
  getitem summary (JStr "uids") = Ok (JList uids) ->
  uid ∈ uids ->
  getitem summary uid = Ok r ->
  k ∈ ["gpl"; "suppfile"; "ftplink"] ->
  raises (getitem r (JStr k)) ->
  raises (parse_gse_summary summary).
Proof.
  intros Hu Hin Hr Hk Hraise. unfold parse_gse_summary. rewrite Hu. simpl.
  destruct (for_append_raises (gse_row summary) uids [] uid Hin
              (gse_row_raises _ _ _ _ Hr Hk Hraise)) as [e He].
  unfold_monad. rewrite He. by eexists.
Qed.

(** ** The summary while [parse_sra_summary] runs *)

Lemma dict_set_set {V} (k : string) (v1 v2 : V) d :
  dict_set k v2 (dict_set k v1 d) = dict_set k v2 d.
Proof.
  induction d as [|[k' v'] d IH]; simpl.
  - by rewrite String.eqb_refl.
  - destruct (String.eqb k k') eqn:E; simpl; rewrite E; [done | by rewrite IH].
Qed.

Lemma getpath_app c l1 l2 :
  getpath c (l1 ++ l2) = getpath c l1 ≫= fun v => getpath v l2.
Proof.
  revert c. induction l1 as [|k l1 IH]; intros c; simpl; [done|].
  unfold_monad. destruct (getitem c k); [apply IH | done].
Qed.

Lemma getpath_cons c k l :
  getpath c (k :: l) = getitem c k ≫= fun v => getpath v l.
Proof. reflexivity. Qed.

Lemma json_str_dec (v : json) (u : string) : v = JStr u \/ v <> JStr u.
Proof.
  destruct v; try (right; discriminate).
  destruct (String.eqb_spec s u) as [->|Hne]; [by left | right; congruence].
Qed.

Lemma getitem_key_inv d uid r :
  getitem (JDict d) uid = Ok r -> exists u, uid = JStr u /\ dict_get u d = Some r.
Proof.
  destruct uid; simpl; try discriminate.
  destruct (dict_get s d) eqn:E; [|discriminate]. intros [= ->]. eauto.
Qed.

Lemma with_item_dict d uid r : is_dict (with_item (JDict d) uid r).
Proof. destruct uid; simpl; by eexists. Qed.

Lemma getitem_with_item_ne d uid' uid r :
  uid' <> uid ->
  getitem (with_item (JDict d) uid' r) uid = getitem (JDict d) uid.
Proof.
  intros Hne. destruct uid'; try done. destruct uid; try done. simpl.
  rewrite dict_get_set_ne; [done | congruence].
Qed.

Section Sequencing.

Variable xmltodict_parse : json -> result json.
Variable py_repr : json -> string.

#[local] Abbreviation step := (sra_step xmltodict_parse py_repr).
#[local] Abbreviation loop := (sra_loop xmltodict_parse py_repr).
#[local] Abbreviation parse := (parse_sra_summary xmltodict_parse py_repr).
#[local] Abbreviation xparse := (expxml_parse xmltodict_parse py_repr).

Lemma setitem_at_inv uid k v d res s1 :
  setitem_at uid k v (JDict d) = (res, s1) ->
  (exists e, res = Raise e /\ s1 = JDict d)
  \/ (exists u rd, uid = JStr u /\ dict_get u d = Some (JDict rd) /\ res = Ok tt
                   /\ s1 = JDict (dict_set u (JDict (dict_set k v rd)) d)).
Proof.
  unfold setitem_at. unfold_monad.
  destruct (getitem (JDict d) uid) as [r|e] eqn:Hr.
  - apply getitem_key_inv in Hr as (u & -> & Hu).
    destruct r; simpl; intros [= <- <-]; try (left; by eexists).
    right. by exists u, d0.
  - intros [= <- <-]. left. by eexists.
Qed.

(** The steps of the loop body, one after the other. *)
Lemma sra_step_unfold uid s :
  step uid s =
  match getpath s [uid; JStr "expxml"] with
  | Raise e => (Raise e, s)
  | Ok x =>
      match xparse x with
      | Raise e => (Raise e, s)
      | Ok tx =>
          match setitem_at uid "expxml" tx s with
          | (Raise e, s0) => (Raise e, s0)
          | (Ok _, s0) =>
              match getpath s0 [uid; JStr "runs"] with
              | Raise e => (Raise e, s0)
              | Ok r =>
                  match xmltodict_parse r with
                  | Raise e => (Raise e, s0)
                  | Ok tr =>
                      match setitem_at uid "runs" tr s0 with
                      | (Raise e, s2) => (Raise e, s2)
                      | (Ok _, s2) => (sra_row uid s2, s2)
                      end
                  end
              end
          end
      end
  end.
Proof.
  unfold sra_step, reading, expxml_parse. unfold_monad.
  destruct (getpath s [uid; JStr "expxml"]); [|done].
  destruct (xmltodict_parse (JStr _)); [|done].
  destruct (getitem _ (JStr "root")); [|done].
  destruct (setitem_at uid "expxml" _ s) as [[[]|] s0]; [|done].
  destruct (getpath s0 _); [|done].
  destruct (xmltodict_parse _); [|done].
  by destruct (setitem_at uid "runs" _ s0) as [[[]|] s2].
Qed.

Lemma getpath_two d u rd k :
  dict_get u d = Some (JDict rd) ->
  getpath (JDict d) [JStr u; JStr k]
  = match dict_get k rd with Some v => Ok v | None => Raise (KeyError (JStr k)) end.
Proof. intros Hu. simpl. rewrite Hu. simpl. by destruct (dict_get k rd). Qed.

(** A step that returns has parsed both entries of the record of [uid] and
    stored the trees in their place. *)
Lemma sra_step_inv uid d row s1 :
  step uid (JDict d) = (Ok row, s1) ->
  exists u rd x r tx tr,
    uid = JStr u
    /\ dict_get u d = Some (JDict rd)
    /\ dict_get "expxml" rd = Some x
    /\ dict_get "runs" rd = Some r
    /\ xparse x = Ok tx
    /\ xmltodict_parse r = Ok tr
    /\ s1 = JDict (dict_set u (JDict (dict_set "runs" tr (dict_set "expxml" tx rd))) d)
    /\ sra_row uid s1 = Ok row.
Proof.
  rewrite sra_step_unfold.
  destruct (getpath (JDict d) [uid; JStr "expxml"]) as [x|] eqn:Hx; [|done].
  destruct (xparse x) as [tx|] eqn:Htx; [|done].
  destruct (setitem_at uid "expxml" tx (JDict d)) as [res s0] eqn:Hset.
  apply setitem_at_inv in Hset
    as [(e & -> & ->)|(u & rd & -> & Hu & -> & ->)]; [done|].
  rewrite (getpath_two _ _ _ _ Hu) in Hx.
  destruct (dict_get "expxml" rd) as [x'|] eqn:Hx'; [|done]. injection Hx as ->.
  rewrite (getpath_two _ u (dict_set "expxml" tx rd)) by apply dict_get_set_eq.
  rewrite dict_get_set_ne by done.
  destruct (dict_get "runs" rd) as [r|] eqn:Hr; [|done].
  destruct (xmltodict_parse r) as [tr|] eqn:Htr; [|done].
  destruct (setitem_at (JStr u) "runs" tr _) as [res s2] eqn:Hset2.
  apply setitem_at_inv in Hset2
    as [(e & -> & ->)|(u' & rd' & [= <-] & Hu' & -> & ->)]; [done|].
  rewrite dict_get_set_eq in Hu'. injection Hu' as <-.
  rewrite dict_set_set. intros [= Hrow <-].
  by exists u, rd, x, r, tx, tr.
Qed.

(** Whatever a step does, it leaves a dictionary and does not touch the
    record of another identifier. *)
Lemma sra_step_frame uid' uid d res s1 :
  step uid' (JDict d) = (res, s1) ->
  uid' <> uid ->
  is_dict s1 /\ getitem s1 uid = getitem (JDict d) uid.
Proof.
  intros Hstep Hne. revert Hstep. rewrite sra_step_unfold.
  assert (Hsame : is_dict (JDict d) /\ getitem (JDict d) uid = getitem (JDict d) uid)
    by (split; [by eexists | done]).
  destruct (getpath (JDict d) [uid'; JStr "expxml"]) as [x|];
    [|by intros [= <- <-]].
  destruct (xparse x) as [tx|]; [|by intros [= <- <-]].
  destruct (setitem_at uid' "expxml" tx (JDict d)) as [res0 s0] eqn:Hset.
  apply setitem_at_inv in Hset
    as [(e & -> & ->)|(u & rd & -> & Hu & -> & ->)]; [by intros [= <- <-]|].
  set (d0 := dict_set u _ d).
  assert (Hd0 : is_dict (JDict d0) /\ getitem (JDict d0) uid = getitem (JDict d) uid).
  { split; [by eexists|]. apply (getitem_with_item_ne d (JStr u) uid _ Hne). }
  destruct (getpath (JDict d0) [JStr u; JStr "runs"]) as [r|];
    [|by intros [= <- <-]].
  destruct (xmltodict_parse r) as [tr|]; [|by intros [= <- <-]].
  destruct (setitem_at (JStr u) "runs" tr (JDict d0)) as [res2 s2] eqn:Hset2.
  apply setitem_at_inv in Hset2
    as [(e & -> & ->)|(u' & rd' & [= <-] & Hu' & -> & ->)]; [by intros [= <- <-]|].
  intros [= <- <-]. split; [by eexists|].
  rewrite <- (proj2 Hd0). apply (getitem_with_item_ne d0 (JStr u) uid _ Hne).
Qed.

Ltac head_ok :=
  match goal with
  | |- match ?x with _ => _ end = _ -> _ =>
      let H := fresh "Hpath" in destruct x eqn:H; [|discriminate]
  end.

Lemma sra_row_inv uid s row :
  sra_row uid s = Ok row ->
  Forall (fun path => exists v, getpath s (uid :: map JStr path) = Ok v) sra_paths
  /\ dict_keys row = sequencing_columns.
Proof.
  unfold sra_row. unfold_monad. do 16 head_ok.
  intros [= <-]. split; [|reflexivity].
  unfold sra_paths. repeat (constructor; [by eexists|]). constructor.
Qed.

Lemma sra_paths_heads :
  Forall (fun path => exists k rest, path = k :: rest /\ (k = "expxml" \/ k = "runs"))
         sra_paths.
Proof. unfold sra_paths. repeat (constructor; [eauto 6|]). constructor. Qed.

(** Below the record of an identifier that has been processed, the paths of
    the row lead into the two parsed trees. *)
Lemma getpath_processed d u rd tx tr path :
  path ∈ sra_paths ->
  getpath (JDict (dict_set u (JDict (dict_set "runs" tr (dict_set "expxml" tx rd))) d))
          (JStr u :: map JStr path)
  = getpath (parsed_trees tx tr) (map JStr path).
Proof.
  intros Hin.
  destruct (proj1 (Forall_forall _ _) sra_paths_heads path Hin)
    as (k & rest & -> & Hk).
  simpl. rewrite dict_get_set_eq. unfold_monad. simpl.
  destruct Hk as [-> | ->].
  - rewrite dict_get_set_ne by done. by rewrite dict_get_set_eq.
  - by rewrite dict_get_set_eq.
Qed.

Lemma sra_step_absent d u rd x r tx tr path :
  dict_get u d = Some (JDict rd) ->
  dict_get "expxml" rd = Some x ->
  dict_get "runs" rd = Some r ->
  xparse x = Ok tx ->
  xmltodict_parse r = Ok tr ->
  path ∈ sra_paths ->
  raises (getpath (parsed_trees tx tr) (map JStr path)) ->
  raises (step (JStr u) (JDict d)).1.
Proof.
  intros Hu Hx Hr Htx Htr Hin [e He].
  destruct (step (JStr u) (JDict d)) as [[row|e'] s1] eqn:Hs; [|by eexists].
  exfalso.
  apply sra_step_inv in Hs
    as (u' & rd' & x' & r' & tx' & tr' & [= <-] & Hu' & Hx' & Hr' & Htx' & Htr' & -> & Hrow).
  rewrite Hu in Hu'. injection Hu' as <-.
  rewrite Hx in Hx'. injection Hx' as <-.
  rewrite Hr in Hr'. injection Hr' as <-.
  rewrite Htx in Htx'. injection Htx' as <-.
  rewrite Htr in Htr'. injection Htr' as <-.
  apply sra_row_inv in Hrow as [Hpaths _].
  destruct (proj1 (Forall_forall _ _) Hpaths path Hin) as [v Hv].
  rewrite getpath_processed in Hv by done. congruence.
Qed.

Lemma sra_loop_raises u rd uids :
  (forall d, dict_get u d = Some (JDict rd) -> raises (step (JStr u) (JDict d)).1) ->
  forall parsed d,
    JStr u ∈ uids ->
    dict_get u d = Some (JDict rd) ->
    raises (loop uids parsed (JDict d)).1.
Proof.
  intros Hstep. induction uids as [|uid0 uids IH]; intros parsed d Hin Hu.
  { by apply elem_of_nil in Hin. }
  simpl. unfold_monad.
  destruct (step uid0 (JDict d)) as [[row|e] s1] eqn:Hs; [|by eexists].
  destruct (json_str_dec uid0 u) as [->|Hne].
  - destruct (Hstep d Hu) as [e He]. rewrite Hs in He. discriminate.
  - destruct (sra_step_frame _ (JStr u) _ _ _ Hs Hne) as [[d1 ->] Hsame].
    apply IH.
    + apply elem_of_cons in Hin as [Heq|Hin]; [congruence | done].
    + simpl in Hsame. rewrite Hu in Hsame.
      by destruct (dict_get u d1); [injection Hsame as -> | discriminate].
Qed.

Lemma parse_sra_summary_raises summary uids uid rec x r tx tr path :
  getitem summary (JStr "uids") = Ok (JList uids) ->
  uid ∈ uids ->
  getitem summary uid = Ok rec ->
  getitem rec (JStr "expxml") = Ok x ->
  getitem rec (JStr "runs") = Ok r ->
  xparse x = Ok tx ->
  xmltodict_parse r = Ok tr ->
  path ∈ sra_paths ->
  raises (getpath (parsed_trees tx tr) (map JStr path)) ->
  raises (parse summary).1.
Proof.
  intros Huids Hin Hrec Hx Hr Htx Htr Hpath Habsent.
  destruct (getitem_dict_inv _ _ _ Huids) as (d & -> & _).
  apply getitem_key_inv in Hrec as (u & -> & Hu).
  apply getitem_dict_inv in Hx as (rd & -> & Hx).
  apply getitem_dict_inv in Hr as (rd' & [= <-] & Hr).
  unfold parse_sra_summary, reading. unfold_monad. rewrite Huids. simpl.
  destruct (sra_loop_raises u rd uids) with (parsed := @nil record) (d := d)
    as [e He]; [|done|done|].
  - intros d' Hd'. by eapply sra_step_absent.
  - destruct (loop uids [] (JDict d)) as [[out|e'] s1]; [discriminate|].
    by eexists.
Qed.

Lemma getpath_same_record s1 s uid path :
  getitem s1 uid = getitem s uid ->
  getpath s1 (uid :: path) = getpath s (uid :: path).
Proof. intros H. by rewrite !getpath_cons, H. Qed.

(** A step that returns leaves two parsed trees, both dictionaries, in the
    record of its identifier: the trees of the entries it found there. *)
Lemma sra_step_trees uid d row s1 :
  step uid (JDict d) = (Ok row, s1) ->
  exists x r tx tr,
    trees_at (JDict d) uid x r
    /\ xparse x = Ok tx
    /\ xmltodict_parse r = Ok tr
    /\ trees_at s1 uid tx tr
    /\ is_dict tx /\ is_dict tr /\ is_dict s1.
Proof.
  intros Hs.
  apply sra_step_inv in Hs
    as (u & rd & x & r & tx & tr & -> & Hu & Hx & Hr & Htx & Htr & -> & Hrow).
  exists x, r, tx, tr.
  apply sra_row_inv in Hrow as [Hpaths _].
  assert (Hget : forall path, path ∈ sra_paths ->
            exists v, getpath (parsed_trees tx tr) (map JStr path) = Ok v).
  { intros path Hin.
    destruct (proj1 (Forall_forall _ _) Hpaths path Hin) as [v Hv].
    rewrite getpath_processed in Hv by done. eauto. }
  split; [|split; [done|split; [done|split; [|split; [|split]]]]].
  - unfold trees_at. rewrite !(getpath_two _ _ _ _ Hu). by rewrite Hx, Hr.
  - unfold trees_at.
    rewrite !(getpath_two _ u (dict_set "runs" tr (dict_set "expxml" tx rd)))
      by apply dict_get_set_eq.
    rewrite dict_get_set_ne by done. by rewrite !dict_get_set_eq.
  - destruct (Hget ["expxml"; "Summary"; "Statistics"; "@total_spots"]) as [v Hv].
    { unfold sra_paths. set_solver. }
    simpl in Hv. unfold_monad.
    destruct (getitem tx (JStr "Summary")) eqn:E; [|discriminate].
    apply getitem_dict_inv in E as (dx & -> & _). by eexists.
  - destruct (Hget ["runs"; "Run"; "@acc"]) as [v Hv].
    { unfold sra_paths. set_solver. }
    simpl in Hv. unfold_monad.
    destruct (getitem tr (JStr "Run")) eqn:E; [|discriminate].
    apply getitem_dict_inv in E as (dr & -> & _). by eexists.
  - by eexists.
Qed.

Lemma trees_at_key d uid tx tr :
  trees_at (JDict d) uid tx tr -> exists u, uid = JStr u.
Proof.
  intros [H _]. rewrite getpath_cons in H. unfold_monad.
  destruct (getitem (JDict d) uid) eqn:E; [|discriminate].
  apply getitem_key_inv in E as (u & -> & _). eauto.
Qed.

Lemma trees_at_same s1 s uid tx tr :
  getitem s1 uid = getitem s uid -> trees_at s uid tx tr -> trees_at s1 uid tx tr.
Proof.
  intros H [H1 H2]. split; by rewrite (getpath_same_record _ _ _ _ H).
Qed.

(** Once an identifier has its two trees, the rest of the loop keeps it so. *)
Lemma sra_loop_keeps uid uids :
  forall parsed d out s',
    loop uids parsed (JDict d) = (Ok out, s') ->
    (exists tx tr, trees_at (JDict d) uid tx tr /\ is_dict tx /\ is_dict tr) ->
    exists tx tr, trees_at s' uid tx tr /\ is_dict tx /\ is_dict tr.
Proof.
  induction uids as [|uid0 uids IH]; intros parsed d out s'; simpl.
  { by intros [= _ <-]. }
  unfold_monad.
  destruct (step uid0 (JDict d)) as [[row|e] s1] eqn:Hs; [|discriminate].
  intros Hloop (tx & tr & Ht & Hdx & Hdr).
  destruct (trees_at_key _ _ _ _ Ht) as [u ->].
  destruct (json_str_dec uid0 u) as [->|Hne].
  - apply sra_step_trees in Hs
      as (x & r & tx' & tr' & _ & _ & _ & Ht' & Hdx' & Hdr' & [d1 ->]).
    eapply IH; [exact Hloop|]. by exists tx', tr'.
  - destruct (sra_step_frame _ (JStr u) _ _ _ Hs Hne) as [[d1 ->] Hsame].
    eapply IH; [exact Hloop|]. exists tx, tr. split; [|done].
    by eapply trees_at_same.
Qed.

Lemma sra_loop_trees uid uids :
  forall parsed d out s',
    loop uids parsed (JDict d) = (Ok out, s') ->
    uid ∈ uids ->
    exists tx tr, trees_at s' uid tx tr /\ is_dict tx /\ is_dict tr.
Proof.
  induction uids as [|uid0 uids IH]; intros parsed d out s' Hloop Hin.
  { by apply elem_of_nil in Hin. }
  simpl in Hloop. unfold_monad.
  destruct (step uid0 (JDict d)) as [[row|e] s1] eqn:Hs; [|discriminate].
  destruct (sra_step_trees _ _ _ _ Hs)
    as (x & r & tx & tr & _ & _ & _ & Ht & Hdx & Hdr & [d1 ->]).
  apply elem_of_cons in Hin as [->|Hin].
  - eapply sra_loop_keeps; [exact Hloop|]. by exists tx, tr.
  - by eapply IH.
Qed.

(** The loop does not touch the record of an identifier it does not visit. *)
Lemma sra_loop_untouched uid uids :
  forall parsed d out s',
    loop uids parsed (JDict d) = (Ok out, s') ->
    uid ∉ uids ->
    getitem s' uid = getitem (JDict d) uid.
Proof.
  induction uids as [|uid0 uids IH]; intros parsed d out s' Hloop Hnin;
    simpl in Hloop.
  { by injection Hloop as _ <-. }
  unfold_monad.
  destruct (step uid0 (JDict d)) as [[row|e] s1] eqn:Hs; [|discriminate].
  apply not_elem_of_cons in Hnin as [Hne Hnin].
  destruct (sra_step_frame _ uid _ _ _ Hs (not_eq_sym Hne)) as [[d1 ->] Hsame].
  rewrite <- Hsame. by eapply IH.
Qed.

(** When no identifier is listed twice, the trees found after the loop are
    those of the entries the summary had before it. *)
Lemma sra_loop_exact uid uids :
  forall parsed d out s',
    loop uids parsed (JDict d) = (Ok out, s') ->
    NoDup uids ->
    uid ∈ uids ->
    exists x r tx tr,
      trees_at (JDict d) uid x r
      /\ xparse x = Ok tx
      /\ xmltodict_parse r = Ok tr
      /\ trees_at s' uid tx tr.
Proof.
  induction uids as [|uid0 uids IH]; intros parsed d out s' Hloop Hnd Hin.
  { by apply elem_of_nil in Hin. }
  simpl in Hloop. unfold_monad.
  destruct (step uid0 (JDict d)) as [[row|e] s1] eqn:Hs; [|discriminate].
  apply NoDup_cons in Hnd as [Hnin Hnd].
  apply elem_of_cons in Hin as [->|Hin].
  - destruct (sra_step_trees _ _ _ _ Hs)
      as (x & r & tx & tr & Hxr & Htx & Htr & Ht & _ & _ & [d1 ->]).
    exists x, r, tx, tr. repeat split; try done; try apply Hxr.
    + rewrite (getpath_same_record s' (JDict d1)); [apply Ht|].
      by eapply sra_loop_untouched.
    + rewrite (getpath_same_record s' (JDict d1)); [apply Ht|].
      by eapply sra_loop_untouched.
  - assert (Hne : uid0 <> uid) by (intros ->; done).
    destruct (sra_step_frame _ uid _ _ _ Hs Hne) as [[d1 ->] Hsame].
    destruct (IH _ _ _ _ Hloop Hnd Hin) as (x & r & tx & tr & Hxr & Htx & Htr & Ht).
    exists x, r, tx, tr. repeat split; try done; try apply Ht.
    + rewrite <- (getpath_same_record _ _ _ _ Hsame). apply Hxr.
    + rewrite <- (getpath_same_record _ _ _ _ Hsame). apply Hxr.
Qed.

Lemma parse_sra_summary_inv summary df summary' :
  parse summary = (Ok df, summary') ->
  exists d uids parsed,
    summary = JDict d
    /\ (getitem summary (JStr "uids") ≫= py_iter) = Ok uids
    /\ loop uids [] summary = (Ok parsed, summary')
    /\ df = pd_DataFrame parsed.
Proof.
  unfold parse_sra_summary, reading. unfold_monad.
  destruct (getitem summary (JStr "uids")) as [v|] eqn:Hv; [|discriminate].
  destruct (getitem_dict_inv _ _ _ Hv) as (d & -> & _).
  destruct (py_iter v) as [uids|]; [|discriminate].
  destruct (loop uids [] (JDict d)) as [[parsed|e] s1] eqn:Hloop; [|discriminate].
  intros [= <- <-]. by exists d, uids, parsed.
Qed.

End Sequencing.

(** C7: when the record of a listed identifier lacks a required part, the
    extraction raises instead of filling in a default or giving a partial
    row: [parse_gse_summary] when [gpl], [suppfile] or [ftplink] is absent,
    [parse_sra_summary] when one of the sixteen paths is absent from the two
    parsed trees. *)
Theorem missing_field_raises
    (xmltodict_parse : json -> result json) (py_repr : json -> string)
    (summary : json) (uids : list json) (uid r : json) :
  getitem summary (JStr "uids") = Ok (JList uids) ->
  uid ∈ uids ->
  getitem summary uid = Ok r ->
  (lacks_primary_field r -> raises (parse_gse_summary summary))
  /\ (lacks_sequencing_path xmltodict_parse py_repr r ->
      raises (parse_sra_summary xmltodict_parse py_repr summary).1).
Proof.
  intros Huids Hin Hr. split.
  - intros (k & Hk & Hraise). by eapply parse_gse_summary_raises.
  - intros (x & runs & tx & tr & path & Hx & Hruns & Htx & Htr & Hpath & Habsent).
    by eapply parse_sra_summary_raises.
Qed.

Lemma missing_field_raises_witness :
  raises (parse_gse_summary Fixtures.summary_no_ftplink)
  /\ raises (parse_sra_summary Fixtures.xml_parser Fixtures.no_repr
               Fixtures.summary_runs_no_study).1.
Proof.
  split.
  - eapply (proj1 (missing_field_raises Fixtures.xml_parser Fixtures.no_repr
                     Fixtures.summary_no_ftplink [JStr "9"] (JStr "9") _
                     eq_refl ltac:(set_solver) eq_refl)).
    exists "ftplink". split; [set_solver|]. by eexists.
  - eapply (proj2 (missing_field_raises Fixtures.xml_parser Fixtures.no_repr
                     Fixtures.summary_runs_no_study [JStr "778"] (JStr "778") _
                     eq_refl ltac:(set_solver) eq_refl)).
    exists (JStr Fixtures.expxml_no_study_text), (JStr Fixtures.runs_text),
      Fixtures.expxml_no_study_tree, Fixtures.runs_tree, ["expxml"; "Study"; "@acc"].
    repeat split; try reflexivity.
    + unfold sra_paths. set_solver.
    + by eexists.
Defined.

(** C9: [parse_sra_summary] changes the summary it is given.  After a call
    that returns, the record of every listed identifier holds two parsed
    trees (dictionaries, so no longer the strings it started with) under
    [expxml] and [runs]; when no identifier is listed twice these are the
    trees of the entries the summary held before the call. *)
Theorem parse_sra_summary_mutates
    (xmltodict_parse : json -> result json) (py_repr : json -> string)
    (summary summary' : json) (df : DataFrame) (uids : list json) (uid : json) :
  parse_sra_summary xmltodict_parse py_repr summary = (Ok df, summary') ->
  getitem summary (JStr "uids") = Ok (JList uids) ->
  uid ∈ uids ->
  exists tx tr,
    trees_at summary' uid tx tr
    /\ is_dict tx /\ is_dict tr
    /\ (NoDup uids ->
        exists x r,
          trees_at summary uid x r
          /\ expxml_parse xmltodict_parse py_repr x = Ok tx
          /\ xmltodict_parse r = Ok tr).
Proof.
  intros Hparse Huids Hin.
  apply parse_sra_summary_inv in Hparse as (d & uids' & parsed & -> & Hu & Hloop & _).
  rewrite Huids in Hu. injection Hu as <-.
  destruct (sra_loop_trees _ _ uid _ _ _ _ _ Hloop Hin) as (tx & tr & Ht & Hdx & Hdr).
  exists tx, tr. repeat split; try done; try apply Ht.
  intros Hnd.
  destruct (sra_loop_exact _ _ uid _ _ _ _ _ Hloop Hnd Hin)
    as (x & r & tx' & tr' & Hxr & Htx & Htr & [Ht1 Ht2]).
  destruct Ht as [Ht1' Ht2'].
  rewrite Ht1 in Ht1'. injection Ht1' as <-.
  rewrite Ht2 in Ht2'. injection Ht2' as <-.
  by exists x, r.
Qed.

Lemma parse_sra_summary_mutates_witness :
  exists tx tr,
    trees_at Fixtures.summary_runs_parsed (JStr "777") tx tr
    /\ is_dict tx /\ is_dict tr
    /\ (NoDup [JStr "777"] ->
        exists x r,
          trees_at Fixtures.summary_runs (JStr "777") x r
          /\ expxml_parse Fixtures.xml_parser Fixtures.no_repr x = Ok tx
          /\ Fixtures.xml_parser r = Ok tr).
Proof.
  eapply (parse_sra_summary_mutates Fixtures.xml_parser Fixtures.no_repr
            Fixtures.summary_runs Fixtures.summary_runs_parsed).
  - vm_compute. reflexivity.
  - reflexivity.
  - set_solver.
Defined.

(** ** The pipeline *)

Section Pipeline.

Variable server : list string -> string -> reply.
Variable xmltodict_parse : json -> result json.
Variable py_repr : json -> string.
Variable frame_repr : DataFrame -> string.

#[local] Abbreviation pipeline := (experiment_summary server xmltodict_parse py_repr).

(** What a run that returns has gone through. *)
Lemma experiment_summary_inv gse_id log out log' :
  pipeline gse_id log = (Ok out, log') ->
  exists gse_summary log1 microarray srp,
    sum_GSE server gse_id log = (Ok gse_summary, log1)
    /\ parse_gse_summary gse_summary = Ok microarray
    /\ find_relevant_srp gse_summary = Ok srp
    /\ ((srp = [] /\ log' = log1
         /\ out = [("gse_id", VStr gse_id); ("microarray", VFrame microarray)])
        \/ (srp <> []
            /\ exists term sra_ids log2 sra_summary rnaseq sra_summary',
                 str_join "+OR+" (JList srp) = Ok term
                 /\ entrez_search server SRA_DB_NAME term log1 = (Ok sra_ids, log2)
                 /\ entrez_summary server SRA_DB_NAME sra_ids log2 = (Ok sra_summary, log')
                 /\ parse_sra_summary xmltodict_parse py_repr sra_summary
                    = (Ok rnaseq, sra_summary')
                 /\ out = [("gse_id", VStr gse_id); ("microarray", VFrame microarray);
                           ("rnaseq", VFrame rnaseq)])).
Proof.
  unfold experiment_summary. unfold_monad.
  destruct (sum_GSE server gse_id log) as [[gse_summary|] log1] eqn:Hsum;
    [|discriminate].
  destruct (parse_gse_summary gse_summary) as [microarray|] eqn:Hm; [|discriminate].
  destruct (find_relevant_srp gse_summary) as [srp|] eqn:Hsrp; [|discriminate].
  intros H. exists gse_summary, log1, microarray, srp.
  do 3 (split; [done|]).
  destruct srp as [|t srp]; simpl in H.
  - left. by injection H as <- <-.
  - right. split; [done|].
    destruct (str_join "+OR+" (JList (t :: srp))) as [term|] eqn:Hterm;
      [|discriminate].
    destruct (entrez_search server SRA_DB_NAME term log1) as [[sra_ids|] log2] eqn:Hs;
      [|discriminate].
    destruct (entrez_summary server SRA_DB_NAME sra_ids log2)
      as [[sra_summary|] log3] eqn:Hss; [|discriminate].
    destruct (parse_sra_summary xmltodict_parse py_repr sra_summary)
      as [[rnaseq|] sra_summary'] eqn:Hp; [|discriminate].
    simpl in H. injection H as <- <-.
    by exists term, sra_ids, log2, sra_summary, rnaseq, sra_summary'.
Qed.

End Pipeline.

(** C4: the composite result that [experiment_summary] returns has the key
    [rnaseq] exactly when [find_relevant_srp] found at least one target in
    the primary summary; with no such target the key is absent. *)
Theorem rnaseq_key_iff
    (server : list string -> string -> reply)
    (xmltodict_parse : json -> result json) (py_repr : json -> string)
    (gse_id : string) (log log' : list string) (out : list (string * pyval)) :
  experiment_summary server xmltodict_parse py_repr gse_id log = (Ok out, log') ->
  exists gse_summary log1 srp,
    sum_GSE server gse_id log = (Ok gse_summary, log1)
    /\ find_relevant_srp gse_summary = Ok srp
    /\ dict_has "rnaseq" out = is_nonempty srp
    /\ (srp = [] -> dict_get "rnaseq" out = None).
Proof.
  intros H. apply experiment_summary_inv in H
    as (gse_summary & log1 & microarray & srp & Hsum & _ & Hsrp & Hcases).
  exists gse_summary, log1, srp. do 2 (split; [done|]).
  destruct Hcases as [(-> & _ & ->)|(Hne & term & ids & log2 & ss & rnaseq & ss' & _ & _ & _ & _ & ->)].
  - done.
  - by destruct srp.
Qed.


Lemma rnaseq_key_iff_witness :
  (exists gse_summary log1 srp,
     sum_GSE Fixtures.service "GSE1" [] = (Ok gse_summary, log1)
     /\ find_relevant_srp gse_summary = Ok srp
     /\ dict_has "rnaseq" Fixtures.composite_gse1 = is_nonempty srp
     /\ (srp = [] -> dict_get "rnaseq" Fixtures.composite_gse1 = None))
  /\ (exists gse_summary log1 srp,
        sum_GSE Fixtures.service "GSE2" [] = (Ok gse_summary, log1)
        /\ find_relevant_srp gse_summary = Ok srp
        /\ dict_has "rnaseq" Fixtures.composite_gse2 = is_nonempty srp
        /\ (srp = [] -> dict_get "rnaseq" Fixtures.composite_gse2 = None)).
Proof.
  split.
  - eapply (rnaseq_key_iff Fixtures.service Fixtures.xml_parser Fixtures.no_repr
              "GSE1" [] _ Fixtures.composite_gse1).
    vm_compute. reflexivity.
  - eapply (rnaseq_key_iff Fixtures.service Fixtures.xml_parser Fixtures.no_repr
              "GSE2" [] _ Fixtures.composite_gse2).
    vm_compute. reflexivity.
Defined.

(** C10: the composite result that [experiment_summary] returns maps
    [gse_id] to the identifier it was given, unchanged, has a table under
    [microarray], and has no key besides these two and, possibly, [rnaseq]. *)
Theorem composite_keys
    (server : list string -> string -> reply)
    (xmltodict_parse : json -> result json) (py_repr : json -> string)
    (gse_id : string) (log log' : list string) (out : list (string * pyval)) :
  experiment_summary server xmltodict_parse py_repr gse_id log = (Ok out, log') ->
  dict_get "gse_id" out = Some (VStr gse_id)
  /\ (exists microarray, dict_get "microarray" out = Some (VFrame microarray))
  /\ (dict_keys out = ["gse_id"; "microarray"]
      \/ dict_keys out = ["gse_id"; "microarray"; "rnaseq"]).
Proof.
  intros H. apply experiment_summary_inv in H
    as (gse_summary & log1 & microarray & srp & _ & _ & _ & Hcases).
  destruct Hcases as [(_ & _ & ->)|(_ & term & ids & log2 & ss & rnaseq & ss' & _ & _ & _ & _ & ->)].
  - split; [done|]. split; [by eexists|]. by left.
  - split; [done|]. split; [by eexists|]. by right.
Qed.

Lemma composite_keys_witness :
  dict_get "gse_id" Fixtures.composite_gse1 = Some (VStr "GSE1")
  /\ (exists microarray, dict_get "microarray" Fixtures.composite_gse1 = Some (VFrame microarray))
  /\ (dict_keys Fixtures.composite_gse1 = ["gse_id"; "microarray"]
      \/ dict_keys Fixtures.composite_gse1 = ["gse_id"; "microarray"; "rnaseq"]).
Proof.
  eapply (composite_keys Fixtures.service Fixtures.xml_parser Fixtures.no_repr
            "GSE1" [] _ Fixtures.composite_gse1).
  vm_compute. reflexivity.
Defined.

(** ** A Summarize request that fails *)

(** The empty mapping that [entrez_summary] returns on a response that is
    not a success has no [uids] entry. *)
Lemma parse_gse_summary_empty_mapping :
  parse_gse_summary (JDict []) = Raise (KeyError (JStr "uids")).
Proof. reflexivity. Qed.

(** Whenever the summary request of the primary record meets a response
    that is not a success, the run raises. *)
Lemma summarize_failure_raises
    (server : list string -> string -> reply)
    (xmltodict_parse : json -> result json) (py_repr : json -> string)
    (gse_id : string) (log log1 : list string) (ids : list string) (r : response) :
  entrez_search server GSE_DB_NAME (gse_id +:+ "+AND+gse[ETYP]") log
  = (Ok (JList (map JStr ids)), log1) ->
  server log1 (ENTREZ_SUMMARY_URL GSE_DB_NAME (join_strs "," ids)) = Reply r ->
  ok r = false ->
  experiment_summary server xmltodict_parse py_repr gse_id log
  = (Raise (KeyError (JStr "uids")),
     log1 ++ [ENTREZ_SUMMARY_URL GSE_DB_NAME (join_strs "," ids)]).
Proof.
  intros Hsearch Hreply Hok. unfold experiment_summary, sum_GSE.
  unfold_monad. rewrite Hsearch.
  unfold entrez_summary, requests_get, str_join. simpl. unfold_monad.
  rewrite all_strs_map, Hreply, Hok. reflexivity.
Qed.

(** A search request that meets a response that is not a success raises
    nothing: the summary of the empty list of identifiers is requested
    next, and the run goes on from the answer to that request. *)
Lemma search_failure_passes_on
    (server : list string -> string -> reply)
    (gse_id : string) (log : list string) (r : response) :
  server log (ENTREZ_SEARCH_URL GSE_DB_NAME (gse_id +:+ "+AND+gse[ETYP]")) = Reply r ->
  ok r = false ->
  sum_GSE server gse_id log
  = entrez_summary server GSE_DB_NAME (JList [])
      (log ++ [ENTREZ_SEARCH_URL GSE_DB_NAME (gse_id +:+ "+AND+gse[ETYP]")]).
Proof.
  intros Hreply Hok. unfold sum_GSE, entrez_search, requests_get. unfold_monad.
  rewrite Hreply, Hok.
  by destruct (entrez_summary _ _ _ _) as [[summary|e] log1].
Qed.

(** C1: the summary request for GSE3 is answered 503; [entrez_summary]
    returns the empty mapping, and the run does not go on with empty tables:
    [parse_gse_summary] raises [KeyError] on the missing [uids]. *)
Theorem summarize_failure_run :
  Fixtures.run "GSE3"
  = (Raise (KeyError (JStr "uids")),
     [ENTREZ_SEARCH_URL "gds" "GSE3+AND+gse[ETYP]"; ENTREZ_SUMMARY_URL "gds" "333"]).
Proof. vm_compute. reflexivity. Qed.

(** ** The files written *)

Lemma pd_DataFrame_shape ks (records : list record) :
  fold_left add_key ks [] = ks ->
  fold_left add_key ks ks = ks ->
  Forall (has_keys ks) records ->
  columns (pd_DataFrame records) = (if is_nonempty (data (pd_DataFrame records)) then ks else [])
  /\ Forall (fun row => length row = length (columns (pd_DataFrame records)))
            (data (pd_DataFrame records)).
Proof.
  intros H0 Hks HF. split.
  - simpl. rewrite (union_keys_uniform ks) by done. by destruct records.
  - simpl. apply Forall_map, Forall_true. intros r. simpl. by rewrite length_map.
Qed.

Lemma csv_of_frame_shape df cols :
  columns df = (if is_nonempty (data df) then cols else []) ->
  Forall (fun row => length row = length (columns df)) (data df) ->
  length (lines (csv_of_frame df)) = length (data df)
  /\ header (csv_of_frame df) = "" :: (if is_nonempty (data df) then cols else [])
  /\ Forall (fun line => length line = length (header (csv_of_frame df)))
            (lines (csv_of_frame df)).
Proof.
  intros Hcols Hrows. split; [|split].
  - simpl. by rewrite length_imap.
  - simpl. by rewrite Hcols.
  - apply Forall_lookup. intros i line. simpl. rewrite list_lookup_imap.
    destruct (data df !! i) as [row|] eqn:Hrow; [|done].
    intros [= <-]. simpl. rewrite length_map. f_equal.
    by apply (proj1 (Forall_lookup _ _) Hrows i row).
Qed.

Lemma paths_differ gse_id gse_id' : MICROARRAY_PATH gse_id <> RNASEQ_PATH gse_id'.
Proof. unfold MICROARRAY_PATH, RNASEQ_PATH. simpl. intros [=]. Qed.

Lemma to_csv_inv df path fs fs' :
  to_csv df path fs = (Ok tt, fs') ->
  files fs' = <[path := csv_of_frame df]> (files fs).
Proof. unfold to_csv. case_bool_decide; [|done]. by intros [= <-]. Qed.

Section Writer.

Variable xmltodict_parse : json -> result json.
Variable py_repr : json -> string.

Lemma sra_loop_keys uids :
  forall parsed d out s',
    sra_loop xmltodict_parse py_repr uids parsed (JDict d) = (Ok out, s') ->
    Forall (has_keys sequencing_columns) parsed ->
    Forall (has_keys sequencing_columns) out.
Proof.
  induction uids as [|uid uids IH]; intros parsed d out s'; simpl.
  { by intros [= <- _]. }
  unfold_monad.
  destruct (sra_step xmltodict_parse py_repr uid (JDict d)) as [[row|e] s1] eqn:Hs;
    [|discriminate].
  intros Hloop Hparsed.
  apply sra_step_inv in Hs as (u & rd & x & r & tx & tr & _ & _ & _ & _ & _ & _ & -> & Hrow).
  eapply IH; [exact Hloop|].
  apply Forall_app. split; [done|]. constructor; [|done].
  by apply sra_row_inv in Hrow as [_ Hkeys].
Qed.

Lemma parse_gse_summary_shape summary df :
  parse_gse_summary summary = Ok df ->
  columns df = (if is_nonempty (data df) then primary_columns else [])
  /\ Forall (fun row => length row = length (columns df)) (data df).
Proof.
  intros H. apply parse_gse_summary_inv in H as (uids & parsed & _ & HF & ->).
  apply pd_DataFrame_shape; [done | done |].
  by eapply primary_keys_uniform.
Qed.

Lemma parse_sra_summary_shape summary df summary' :
  parse_sra_summary xmltodict_parse py_repr summary = (Ok df, summary') ->
  columns df = (if is_nonempty (data df) then sequencing_columns else [])
  /\ Forall (fun row => length row = length (columns df)) (data df).
Proof.
  intros H. apply parse_sra_summary_inv in H as (d & uids & parsed & -> & _ & Hloop & ->).
  apply pd_DataFrame_shape; [done | done |].
  eapply sra_loop_keys; [exact Hloop | constructor].
Qed.

End Writer.

(** C8, as the code has it: for a composite result returned by
    [experiment_summary], each file that [save_to_csv] writes has one line
    per row of its table, and its header is the unnamed column of the row
    labels followed by the columns of the table: exactly the enumerated
    columns when the table has a row, none when it has no row. *)
Theorem csv_output_columns
    (server : list string -> string -> reply)
    (xmltodict_parse : json -> result json) (py_repr : json -> string)
    (frame_repr : DataFrame -> string)
    (gse_id : string) (log log' : list string) (out : list (string * pyval))
    (fs fs' : filesystem) :
  experiment_summary server xmltodict_parse py_repr gse_id log = (Ok out, log') ->
  save_to_csv frame_repr out fs = (Ok tt, fs') ->
  (exists microarray,
     dict_get "microarray" out = Some (VFrame microarray)
     /\ written fs' (MICROARRAY_PATH gse_id) microarray primary_columns)
  /\ (forall v, dict_get "rnaseq" out = Some v ->
        exists rnaseq,
          v = VFrame rnaseq
          /\ written fs' (RNASEQ_PATH gse_id) rnaseq sequencing_columns).
Proof.
  intros Hrun Hsave. apply experiment_summary_inv in Hrun
    as (gse_summary & log1 & microarray & srp & _ & Hm & _ & Hcases).
  destruct (parse_gse_summary_shape _ _ Hm) as [Hmc Hmr].
  destruct (csv_of_frame_shape microarray primary_columns Hmc Hmr) as (Hm1 & Hm2 & Hm3).
  destruct Hcases
    as [(_ & _ & ->)
       |(_ & term & ids & log2 & ss & rnaseq & ss' & _ & _ & _ & Hr & ->)].
  - unfold save_to_csv, lookup_key, frame_of in Hsave. unfold_monad.
    simpl in Hsave.
    destruct (to_csv microarray (MICROARRAY_PATH gse_id) fs) as [[[]|] fs1] eqn:Hw;
      [|discriminate].
    injection Hsave as <-. apply to_csv_inv in Hw.
    split; [|done].
    exists microarray. split; [done|].
    exists (csv_of_frame microarray). split; [|done].
    by rewrite Hw, lookup_insert_eq.
  - destruct (parse_sra_summary_shape _ _ _ _ _ Hr) as [Hrc Hrr].
    destruct (csv_of_frame_shape rnaseq sequencing_columns Hrc Hrr) as (Hr1 & Hr2 & Hr3).
    unfold save_to_csv, lookup_key, frame_of in Hsave. unfold_monad.
    simpl in Hsave.
    destruct (to_csv microarray (MICROARRAY_PATH gse_id) fs) as [[[]|] fs1] eqn:Hw;
      [|discriminate].
    apply to_csv_inv in Hw. apply to_csv_inv in Hsave.
    split.
    + exists microarray. split; [done|].
      exists (csv_of_frame microarray). split; [|done].
      rewrite Hsave, lookup_insert_ne by (apply not_eq_sym, paths_differ).
      by rewrite Hw, lookup_insert_eq.
    + intros v [= <-]. exists rnaseq. split; [done|].
      exists (csv_of_frame rnaseq). split; [|done].
      by rewrite Hsave, lookup_insert_eq.
Qed.

Lemma csv_output_columns_witness :
  (exists microarray,
     dict_get "microarray" Fixtures.composite_gse1 = Some (VFrame microarray)
     /\ written Fixtures.saved_gse1 (MICROARRAY_PATH "GSE1") microarray primary_columns)
  /\ (forall v, dict_get "rnaseq" Fixtures.composite_gse1 = Some v ->
        exists rnaseq,
          v = VFrame rnaseq
          /\ written Fixtures.saved_gse1 (RNASEQ_PATH "GSE1") rnaseq sequencing_columns).
Proof.
  eapply (csv_output_columns Fixtures.service Fixtures.xml_parser Fixtures.no_repr
            Fixtures.no_frame_repr "GSE1" [] _ Fixtures.composite_gse1
            Fixtures.results_dirs Fixtures.saved_gse1).
  - vm_compute. reflexivity.
  - vm_compute. reflexivity.
Defined.

(** C8 as stated fails.  The run for GSE2 returns a primary table with one
    row, and the file written for it has five columns, the first one unnamed
    and holding the row label; the run for GSE4 returns a table without
    rows, and the file written for it has the unnamed column only. *)
Lemma csv_columns_counterexample :
  (exists log' fs' csv,
     Fixtures.run "GSE2"
     = (Ok [("gse_id", VStr "GSE2");
            ("microarray",
             VFrame {| columns := ["uid"; "gpl"; "suppfile"; "ftplink"];
                       data := [[only (JStr "222"); only (JStr "571");
                                 only (JStr "CEL"); only (JStr "ftp://geo/GSE2/")]] |})],
        log')
     /\ save_to_csv Fixtures.no_frame_repr Fixtures.composite_gse2 Fixtures.results_dirs
        = (Ok tt, fs')
     /\ files fs' !! MICROARRAY_PATH "GSE2" = Some csv
     /\ header csv = [""; "uid"; "gpl"; "suppfile"; "ftplink"]
     /\ lines csv = [[FLabel 0; FCell (only (JStr "222")); FCell (only (JStr "571"));
                      FCell (only (JStr "CEL")); FCell (only (JStr "ftp://geo/GSE2/"))]]
     /\ header csv <> primary_columns)
  /\ (exists log' fs' csv,
        Fixtures.run "GSE4"
        = (Ok [("gse_id", VStr "GSE4");
               ("microarray", VFrame {| columns := []; data := [] |})], log')
        /\ save_to_csv Fixtures.no_frame_repr Fixtures.composite_gse4 Fixtures.results_dirs
           = (Ok tt, fs')
        /\ files fs' !! MICROARRAY_PATH "GSE4" = Some csv
        /\ header csv = [""]
        /\ lines csv = []
        /\ header csv <> primary_columns).
Proof.
  split.
  - eexists _, _, _. split; [vm_compute; reflexivity|].
    split; [vm_compute; reflexivity|].
    split; [vm_compute; reflexivity|].
    split; [reflexivity|]. split; [reflexivity|]. discriminate.
  - eexists _, _, _. split; [vm_compute; reflexivity|].
    split; [vm_compute; reflexivity|].
    split; [vm_compute; reflexivity|].
    split; [reflexivity|]. split; [reflexivity|]. discriminate.
Qed.

(** * Further properties *)

(** ** Requests *)

Lemma entrez_search_log server db_name term log res log' :
  entrez_search server db_name term log = (res, log') ->
  log' = log ++ [ENTREZ_SEARCH_URL db_name term].
Proof.
  unfold entrez_search, requests_get. unfold_monad.
  destruct (server log _) as [|r]; [by intros [= _ <-]|].
  destruct (ok r); by intros [= _ <-].
Qed.

Lemma entrez_summary_log server db_name ids log res log' :
  entrez_summary server db_name ids log = (res, log') ->
  (exists e, str_join "," ids = Raise e /\ res = Raise e /\ log' = log)
  \/ (exists joined, str_join "," ids = Ok joined
                     /\ log' = log ++ [ENTREZ_SUMMARY_URL db_name joined]).
Proof.
  unfold entrez_summary, requests_get. unfold_monad.
  destruct (str_join "," ids) as [joined|e].
  - intros H. right. exists joined. split; [done|].
    destruct (server log _) as [|r]; [by injection H as _ <-|].
    destruct (ok r); by injection H as _ <-.
  - intros [= <- <-]. left. by exists e.
Qed.

(** X1: whatever the service answers (a success, a failure, a body that is
    not the expected JSON, or nothing), [entrez_search] issues exactly one
    request, and so does [entrez_summary] for a list of string identifiers. *)
Theorem one_request_per_call
    (server : list string -> string -> reply) (db_name term : string)
    (ids : list string) (log : list string) :
  (entrez_search server db_name term log).2
  = log ++ [ENTREZ_SEARCH_URL db_name term]
  /\ (entrez_summary server db_name (JList (map JStr ids)) log).2
     = log ++ [ENTREZ_SUMMARY_URL db_name (join_strs "," ids)].
Proof.
  split.
  - destruct (entrez_search server db_name term log) as [res log'] eqn:H.
    by apply entrez_search_log in H.
  - destruct (entrez_summary server db_name (JList (map JStr ids)) log)
      as [res log'] eqn:H.
    apply entrez_summary_log in H as [(e & He & _)|(joined & Hj & ->)];
      unfold str_join in *; simpl in *; unfold_monad;
      rewrite all_strs_map in *; [discriminate|].
    by injection Hj as <-.
Qed.

Lemma all_strs_not_str l v :
  v ∈ l -> (forall s, v <> JStr s) -> all_strs l = Raise TypeError.
Proof.
  intros Hin Hv. induction l as [|x l IH]; [by apply elem_of_nil in Hin|].
  apply elem_of_cons in Hin as [<-|Hin].
  - destruct v; try done. by destruct (Hv s).
  - simpl. destruct x; try done. rewrite (IH Hin). done.
Qed.

Lemma all_strs_inv l ss : all_strs l = Ok ss -> l = map JStr ss.
Proof.
  revert ss. induction l as [|x l IH]; intros ss; simpl.
  - by intros [= <-].
  - destruct x; try discriminate. unfold_monad.
    destruct (all_strs l) as [ss'|]; [|discriminate].
    intros [= <-]. simpl. by rewrite (IH ss').
Qed.

(** X2: when the list of identifiers holds a value that is not a string,
    [entrez_summary] raises [TypeError] while it joins them, before any
    request is issued. *)
Theorem entrez_summary_bad_identifier
    (server : list string -> string -> reply) (db_name : string)
    (ids : list json) (v : json) (log : list string) :
  v ∈ ids ->
  (forall s, v <> JStr s) ->
  entrez_summary server db_name (JList ids) log = (Raise TypeError, log).
Proof.
  intros Hin Hv. unfold entrez_summary, str_join. simpl. unfold_monad.
  by rewrite (all_strs_not_str ids v Hin Hv).
Qed.

Lemma entrez_summary_bad_identifier_witness :
  entrez_summary Fixtures.service "gds" (JList [JStr "1"; JNum 2]) ["earlier"]
  = (Raise TypeError, ["earlier"]).
Proof.
  apply (entrez_summary_bad_identifier Fixtures.service "gds"
           [JStr "1"; JNum 2] (JNum 2) ["earlier"]).
  - set_solver.
  - discriminate.
Defined.

Lemma sum_GSE_log server gse_id log gse_summary log1 :
  sum_GSE server gse_id log = (Ok gse_summary, log1) ->
  exists joined,
    log1 = log ++ [ENTREZ_SEARCH_URL GSE_DB_NAME (gse_id +:+ "+AND+gse[ETYP]");
                   ENTREZ_SUMMARY_URL GSE_DB_NAME joined].
Proof.
  unfold sum_GSE. unfold_monad.
  destruct (entrez_search server GSE_DB_NAME _ log) as [[ids|] log0] eqn:Hs;
    [|discriminate].
  apply entrez_search_log in Hs as ->.
  destruct (entrez_summary server GSE_DB_NAME ids _) as [[summary|] log2] eqn:Hsum;
    [|discriminate].
  intros [= <- <-].
  apply entrez_summary_log in Hsum as [(e & _ & [=] & _)|(joined & _ & ->)].
  exists joined. by rewrite <- app_assoc.
Qed.

(** X3: a run of [experiment_summary] that returns has issued the search
    and the summary request of the primary namespace and nothing else when
    no [SRA] target was found; when targets were found it has issued two
    more requests, the first of them the search of the sequencing namespace
    for the targets joined by [+OR+]. *)
Theorem experiment_summary_requests
    (server : list string -> string -> reply)
    (xmltodict_parse : json -> result json) (py_repr : json -> string)
    (gse_id : string) (log log' : list string) (out : list (string * pyval)) :
  experiment_summary server xmltodict_parse py_repr gse_id log = (Ok out, log') ->
  exists gse_summary joined targets,
    sum_GSE server gse_id log
    = (Ok gse_summary,
       log ++ [ENTREZ_SEARCH_URL GSE_DB_NAME (gse_id +:+ "+AND+gse[ETYP]");
               ENTREZ_SUMMARY_URL GSE_DB_NAME joined])
    /\ find_relevant_srp gse_summary = Ok (map JStr targets)
    /\ exists more,
         log' = log ++ [ENTREZ_SEARCH_URL GSE_DB_NAME (gse_id +:+ "+AND+gse[ETYP]");
                        ENTREZ_SUMMARY_URL GSE_DB_NAME joined] ++ more
         /\ (targets = [] -> more = [])
         /\ (targets <> [] ->
             exists joined', more = [ENTREZ_SEARCH_URL SRA_DB_NAME (join_strs "+OR+" targets);
                                     ENTREZ_SUMMARY_URL SRA_DB_NAME joined']).
Proof.
  intros H. apply experiment_summary_inv in H
    as (gse_summary & log1 & microarray & srp & Hsum & _ & Hsrp & Hcases).
  destruct (sum_GSE_log _ _ _ _ _ Hsum) as [joined ->].
  exists gse_summary, joined.
  destruct Hcases
    as [(-> & -> & _)
       |(Hne & term & ids & log2 & ss & rnaseq & ss' & Hterm & Hs & Hss & _ & _)].
  - exists []. do 2 (split; [done|]). exists []. by rewrite app_nil_r.
  - unfold str_join in Hterm. simpl in Hterm. unfold_monad.
    destruct (all_strs srp) as [targets|] eqn:Hall; [|discriminate].
    injection Hterm as <-. apply all_strs_inv in Hall as ->.
    exists targets. do 2 (split; [done|]).
    apply entrez_search_log in Hs as ->.
    apply entrez_summary_log in Hss as [(e & _ & [=] & _)|(joined' & _ & ->)].
    eexists. split; [by rewrite <- !app_assoc|].
    split; [by intros ->|]. intros _. by exists joined'.
Qed.

Lemma experiment_summary_requests_witness :
  exists gse_summary joined targets,
    sum_GSE Fixtures.service "GSE1" []
    = (Ok gse_summary,
       [] ++ [ENTREZ_SEARCH_URL GSE_DB_NAME ("GSE1" +:+ "+AND+gse[ETYP]");
              ENTREZ_SUMMARY_URL GSE_DB_NAME joined])
    /\ find_relevant_srp gse_summary = Ok (map JStr targets)
    /\ exists more,
         (Fixtures.run "GSE1").2
         = [] ++ [ENTREZ_SEARCH_URL GSE_DB_NAME ("GSE1" +:+ "+AND+gse[ETYP]");
                  ENTREZ_SUMMARY_URL GSE_DB_NAME joined] ++ more
         /\ (targets = [] -> more = [])
         /\ (targets <> [] ->
             exists joined', more = [ENTREZ_SEARCH_URL SRA_DB_NAME (join_strs "+OR+" targets);
                                     ENTREZ_SUMMARY_URL SRA_DB_NAME joined']).
Proof.
  eapply (experiment_summary_requests Fixtures.service Fixtures.xml_parser
            Fixtures.no_repr "GSE1" [] _ Fixtures.composite_gse1).
  vm_compute. reflexivity.
Defined.

(** ** What the extraction reads *)

Lemma for_append_ext {A B} (f g : A -> result B) l acc :
  (forall x, x ∈ l -> f x = g x) ->
  for_append f l acc = for_append g l acc.
Proof.
  revert acc. induction l as [|x l IH]; intros acc H; [done|].
  simpl. rewrite (H x) by set_solver. unfold_monad.
  destruct (g x); [|done]. apply IH. intros y Hy. apply H. set_solver.
Qed.

Lemma extend_extrelations_ext s1 s2 uids acc :
  (forall uid, uid ∈ uids -> getitem s1 uid = getitem s2 uid) ->
  extend_extrelations s1 uids acc = extend_extrelations s2 uids acc.
Proof.
  revert acc. induction uids as [|uid uids IH]; intros acc H; [done|].
  simpl. rewrite (H uid) by set_solver. unfold_monad.
  destruct (getitem s2 uid) as [r|]; [|done].
  destruct (getitem r (JStr "extrelations")) as [e|]; [|done].
  destruct (py_iter e); [|done]. apply IH. intros y Hy. apply H. set_solver.
Qed.

(** X4: [parse_gse_summary] and [find_relevant_srp] read the [uids] list
    and the records it names, nothing else: two summaries that agree on
    these give the same result, whatever else they hold. *)
Theorem extraction_reads_listed_only (s1 s2 : json) (uids : list json) :
  getitem s1 (JStr "uids") = Ok (JList uids) ->
  getitem s2 (JStr "uids") = Ok (JList uids) ->
  (forall uid, uid ∈ uids -> getitem s1 uid = getitem s2 uid) ->
  parse_gse_summary s1 = parse_gse_summary s2
  /\ find_relevant_srp s1 = find_relevant_srp s2.
Proof.
  intros H1 H2 Hsame. split.
  - unfold parse_gse_summary. rewrite H1, H2. simpl.
    rewrite (for_append_ext (gse_row s1) (gse_row s2)); [done|].
    intros uid Hin. unfold gse_row. by rewrite (Hsame uid Hin).
  - unfold find_relevant_srp. rewrite H1, H2. simpl.
    by rewrite (extend_extrelations_ext s1 s2).
Qed.

Lemma extraction_reads_listed_only_witness :
  parse_gse_summary Fixtures.summary_two = parse_gse_summary Scenarios.summary_two_extra
  /\ find_relevant_srp Fixtures.summary_two = find_relevant_srp Scenarios.summary_two_extra.
Proof.
  apply (extraction_reads_listed_only Fixtures.summary_two Scenarios.summary_two_extra
           [JStr "a"; JStr "b"]).
  - reflexivity.
  - reflexivity.
  - intros uid Hin.
    repeat (apply elem_of_cons in Hin as [->|Hin]); [reflexivity | reflexivity |].
    by apply elem_of_nil in Hin.
Defined.

(** ** Relations that cannot be read *)

Lemma extend_extrelations_raises summary uids acc uid r :
  uid ∈ uids ->
  getitem summary uid = Ok r ->
  raises (getitem r (JStr "extrelations") ≫= py_iter) ->
  raises (extend_extrelations summary uids acc).
Proof.
  intros Hin Hr [e He]. revert acc.
  induction uids as [|uid0 uids IH]; intros acc; [by apply elem_of_nil in Hin|].
  simpl. unfold_monad. apply elem_of_cons in Hin as [<-|Hin].
  - rewrite Hr. unfold_monad. rewrite He. by eexists.
  - destruct (getitem summary uid0) as [r0|]; [|by eexists].
    destruct (getitem r0 (JStr "extrelations")) as [e0|]; [|by eexists].
    destruct (py_iter e0); [by apply IH | by eexists].
Qed.

Lemma extend_extrelations_mem summary uids acc out uid r relations relation :
  extend_extrelations summary uids acc = Ok out ->
  uid ∈ uids ->
  getitem summary uid = Ok r ->
  getitem r (JStr "extrelations") = Ok (JList relations) ->
  relation ∈ relations ->
  relation ∈ out.
Proof.
  intros Hext Hin Hr Hrels Hrel.
  assert (Hacc : forall uids acc out x,
            extend_extrelations summary uids acc = Ok out -> x ∈ acc -> x ∈ out).
  { clear. induction uids as [|u uids IH]; intros acc out x; simpl.
    - by intros [= <-].
    - unfold_monad.
      destruct (getitem summary u) as [r|]; [|discriminate].
      destruct (getitem r (JStr "extrelations")) as [e|]; [|discriminate].
      destruct (py_iter e) as [items|]; [|discriminate].
      intros H Hx. eapply IH; [exact H|]. set_solver. }
  revert acc Hext. induction uids as [|uid0 uids IH]; intros acc Hext;
    [by apply elem_of_nil in Hin|].
  simpl in Hext. unfold_monad. apply elem_of_cons in Hin as [<-|Hin].
  - rewrite Hr, Hrels in Hext. simpl in Hext.
    eapply Hacc; [exact Hext|]. set_solver.
  - destruct (getitem summary uid0) as [r0|]; [|discriminate].
    destruct (getitem r0 (JStr "extrelations")) as [e0|]; [|discriminate].
    destruct (py_iter e0) as [items|]; [|discriminate].
    by eapply IH.
Qed.

Lemma select_srp_raises relations relation :
  relation ∈ relations ->
  unreadable_relation relation ->
  raises (select_srp relations).
Proof.
  intros Hin Hbad. induction relations as [|x l IH]; [by apply elem_of_nil in Hin|].
  simpl. unfold_monad. apply elem_of_cons in Hin as [<-|Hin].
  - destruct Hbad as [[e He]|(ty & Hty & Hsra & [e He])].
    + rewrite He. by eexists.
    + rewrite Hty, Hsra, He. by eexists.
  - destruct (getitem x (JStr "relationtype")) as [ty|]; [|by eexists].
    destruct (IH Hin) as [e He].
    destruct (eq_str ty "SRA"); [|by eexists].
    destruct (getitem x (JStr "targetobject")); [|by eexists].
    rewrite He. by eexists.
Qed.

(** X5: [find_relevant_srp] raises when the record of a listed identifier
    has no list of relations, and when one of its relations has no type
    label or is labelled [SRA] and has no target; relations of other
    identifiers that come first do not prevent it. *)
Theorem find_relevant_srp_raises
    (summary : json) (uids : list json) (uid r : json) :
  getitem summary (JStr "uids") = Ok (JList uids) ->
  uid ∈ uids ->
  getitem summary uid = Ok r ->
  raises (getitem r (JStr "extrelations") ≫= py_iter)
  \/ (exists relations relation,
        getitem r (JStr "extrelations") = Ok (JList relations)
        /\ relation ∈ relations
        /\ unreadable_relation relation) ->
  raises (find_relevant_srp summary).
Proof.
  intros Huids Hin Hr Hbad. unfold find_relevant_srp. rewrite Huids. simpl.
  destruct Hbad as [Hno|(relations & relation & Hrels & Hrel & Hun)].
  - destruct (extend_extrelations_raises summary uids [] uid r Hin Hr Hno) as [e He].
    unfold_monad. rewrite He. by eexists.
  - unfold_monad.
    destruct (extend_extrelations summary uids []) as [out|] eqn:Hext; [|by eexists].
    eapply select_srp_raises; [|exact Hun].
    by eapply extend_extrelations_mem.
Qed.

Lemma find_relevant_srp_raises_witness :
  raises (find_relevant_srp Scenarios.summary_bad_relation)
  /\ raises (find_relevant_srp Fixtures.summary_no_ftplink).
Proof.
  split.
  - eapply (find_relevant_srp_raises Scenarios.summary_bad_relation
              [JStr "5"] (JStr "5") _ eq_refl ltac:(set_solver) eq_refl).
    right. eexists _, (JDict [("targetobject", JStr "SRP1")]).
    split; [reflexivity|]. split; [set_solver|]. left. by eexists.
  - eapply (find_relevant_srp_raises Fixtures.summary_no_ftplink
              [JStr "9"] (JStr "9") _ eq_refl ltac:(set_solver) eq_refl).
    left. by eexists.
Defined.

(** ** The rows of the sequencing table *)

Lemma Forall2_impl_mem {A B} (P Q : A -> B -> Prop) l k :
  Forall2 P l k ->
  (forall x y, x ∈ l -> P x y -> Q x y) ->
  Forall2 Q l k.
Proof.
  induction 1 as [|x y l k Hxy _ IH]; intros H; constructor.
  - apply H; [set_solver | done].
  - apply IH. intros x' y' Hin. apply H. set_solver.
Qed.

Ltac split_values H :=
  repeat (let v := fresh "v" in
          let Hv := fresh "Hv" in
          apply Forall2_cons_inv_l in H as (v & ? & Hv & H & ->));
  apply Forall2_nil_inv_l in H as ->.

Lemma sra_row_values uid s vals :
  Forall2 (fun path v => getpath s (uid :: map JStr path) = Ok v) sra_paths vals ->
  sra_row uid s = Ok (("uid", uid) :: zip sequencing_fields vals).
Proof.
  intros H. unfold sra_paths in H. split_values H.
  unfold sra_row. unfold_monad.
  repeat match goal with
         | Hv : getpath s _ = Ok _ |- _ => rewrite Hv; clear Hv
         end.
  reflexivity.
Qed.

Lemma sequencing_cells (uid : json) (vals : list json) :
  length vals = 16 ->
  map (fun c => dict_get c (("uid", uid) :: zip sequencing_fields vals))
      sequencing_columns
  = Some uid :: map Some vals.
Proof.
  intros Hlen.
  do 16 (destruct vals as [|? vals]; [discriminate|]).
  destruct vals; [reflexivity | discriminate].
Qed.

Lemma sequencing_rows_cells (uids : list json) (valss : list (list json)) :
  Forall2 (fun _ vals => length vals = 16) uids valss ->
  map (fun r => map (fun c => dict_get c r) sequencing_columns)
      (zip_with (fun uid vals => ("uid", uid) :: zip sequencing_fields vals) uids valss)
  = zip_with (fun uid vals => Some uid :: map Some vals) uids valss.
Proof.
  induction 1 as [|uid vals uids valss Hl _ IH]; [done|].
  cbn [zip_with map]. rewrite IH. f_equal. by apply sequencing_cells.
Qed.

(** The values that the cells of a frame were built from. *)
Lemma given_of_frame (records : list record) :
  map (map given) (data (pd_DataFrame records))
  = map (fun r => map (fun c => dict_get c r) (union_keys records)) records.
Proof.
  unfold pd_DataFrame. cbn [data]. rewrite map_map.
  apply map_ext. intros r. by rewrite map_map.
Qed.

Section Rows.

Variable xmltodict_parse : json -> result json.
Variable py_repr : json -> string.

#[local] Abbreviation step := (sra_step xmltodict_parse py_repr).
#[local] Abbreviation loop := (sra_loop xmltodict_parse py_repr).
#[local] Abbreviation parse := (parse_sra_summary xmltodict_parse py_repr).
#[local] Abbreviation xparse := (expxml_parse xmltodict_parse py_repr).

Lemma setitem_at_run d u k v rd :
  dict_get u d = Some (JDict rd) ->
  setitem_at (JStr u) k v (JDict d)
  = (Ok tt, JDict (dict_set u (JDict (dict_set k v rd)) d)).
Proof. intros Hu. unfold setitem_at. simpl. by rewrite Hu. Qed.

(** The step on a record whose two entries parse. *)
Lemma sra_step_run d u x r tx tr :
  trees_at (JDict d) (JStr u) x r ->
  xparse x = Ok tx ->
  xmltodict_parse r = Ok tr ->
  exists rd,
    dict_get u d = Some (JDict rd)
    /\ step (JStr u) (JDict d)
       = (sra_row (JStr u)
            (JDict (dict_set u (JDict (dict_set "runs" tr (dict_set "expxml" tx rd))) d)),
          JDict (dict_set u (JDict (dict_set "runs" tr (dict_set "expxml" tx rd))) d)).
Proof.
  intros [Hx Hr] Htx Htr.
  assert (Hrec : exists rd, dict_get u d = Some (JDict rd)
                            /\ dict_get "expxml" rd = Some x
                            /\ dict_get "runs" rd = Some r).
  { rewrite getpath_cons in Hx, Hr. unfold_monad.
    destruct (getitem (JDict d) (JStr u)) as [rec|] eqn:Hrec; [|discriminate].
    apply getitem_dict_inv in Hrec as (d' & [= <-] & Hu).
    rewrite getpath_cons in Hx, Hr. unfold_monad.
    destruct (getitem rec (JStr "expxml")) as [x'|] eqn:Hx'; [|discriminate].
    destruct (getitem rec (JStr "runs")) as [r'|] eqn:Hr'; [|discriminate].
    simpl in Hx, Hr. injection Hx as ->. injection Hr as ->.
    apply getitem_dict_inv in Hx' as (rd & -> & Hx').
    apply getitem_dict_inv in Hr' as (rd' & [= <-] & Hr').
    by exists rd. }
  destruct Hrec as (rd & Hu & Hxe & Hre). exists rd. split; [done|].
  rewrite sra_step_unfold.
  rewrite (getpath_two _ _ _ _ Hu), Hxe, Htx.
  rewrite (setitem_at_run _ _ _ _ _ Hu).
  rewrite (getpath_two _ u (dict_set "expxml" tx rd)) by apply dict_get_set_eq.
  rewrite dict_get_set_ne by done. rewrite Hre, Htr.
  rewrite (setitem_at_run _ _ _ _ (dict_set "expxml" tx rd))
    by apply dict_get_set_eq.
  by rewrite dict_set_set.
Qed.

Lemma sra_loop_rows uids valss :
  Forall2 (fun _ vals => length vals = 16) uids valss ->
  forall parsed d,
    NoDup uids ->
    Forall2 (sequencing_record xmltodict_parse py_repr (JDict d)) uids valss ->
    exists s',
      loop uids parsed (JDict d)
      = (Ok (parsed ++ zip_with (fun uid vals => ("uid", uid) :: zip sequencing_fields vals)
                                uids valss), s').
Proof.
  induction 1 as [|uid vals uids valss _ _ IH]; intros parsed d Hnd Hall.
  { exists (JDict d). simpl. by rewrite app_nil_r. }
  apply NoDup_cons in Hnd as [Hnin Hnd].
  apply Forall2_cons in Hall as [(x & r & tx & tr & Ht & Htx & Htr & Hvals) Hall].
  destruct (trees_at_key _ _ _ _ Ht) as [u ->].
  destruct (sra_step_run d u x r tx tr Ht Htx Htr) as (rd & Hu & Hstep).
  simpl. unfold_monad. rewrite Hstep.
  rewrite (sra_row_values (JStr u) _ vals).
  2:{ eapply Forall2_impl_mem; [exact Hvals|]. intros path v Hin Hv. simpl in Hv.
      by rewrite getpath_processed. }
  destruct (IH (parsed ++ [("uid", JStr u) :: zip sequencing_fields vals])
              (dict_set u (JDict (dict_set "runs" tr (dict_set "expxml" tx rd))) d) Hnd)
    as [s' Hs'].
  { eapply Forall2_impl_mem; [exact Hall|].
    intros uid' vals' Hin (x' & r' & tx' & tr' & Ht' & Hrest).
    exists x', r', tx', tr'. split; [|done].
    eapply trees_at_same; [|exact Ht'].
    destruct (sra_step_frame xmltodict_parse py_repr (JStr u) uid' d _ _ Hstep)
      as [_ Hsame]; [|done].
    intros <-. done. }
  exists s'. cbv beta iota. rewrite <- app_assoc in Hs'. exact Hs'.
Qed.

End Rows.

(** X6: on a sequencing summary that lists no identifier twice and whose
    records each hold two entries that parse into trees with the sixteen
    paths, [parse_sra_summary] returns a table with one row per identifier,
    in the order of [uids]; the cells of a row are built from the
    identifier and then the sixteen values of its trees, under the columns
    uid, run_id, ..., sra_id. *)
Theorem parse_sra_summary_rows
    (xmltodict_parse : json -> result json) (py_repr : json -> string)
    (summary : json) (uids : list json) (valss : list (list json)) :
  getitem summary (JStr "uids") = Ok (JList uids) ->
  NoDup uids ->
  Forall2 (sequencing_record xmltodict_parse py_repr summary) uids valss ->
  exists df summary',
    parse_sra_summary xmltodict_parse py_repr summary = (Ok df, summary')
    /\ columns df = (if is_nonempty uids then sequencing_columns else [])
    /\ map (map given) (data df)
       = zip_with (fun uid vals => Some uid :: map Some vals) uids valss.
Proof.
  intros Huids Hnd Hall.
  destruct (getitem_dict_inv _ _ _ Huids) as (d & -> & _).
  assert (Hlen : Forall2 (fun (_ : json) (vals : list json) => length vals = 16)
                         uids valss).
  { eapply Forall2_impl; [exact Hall|].
    intros uid vals (x & r & tx & tr & _ & _ & _ & Hv).
    by apply Forall2_length in Hv. }
  destruct (sra_loop_rows xmltodict_parse py_repr uids valss Hlen [] d Hnd Hall)
    as [s' Hloop].
  exists (pd_DataFrame
            (zip_with (fun uid vals => ("uid", uid) :: zip sequencing_fields vals)
                      uids valss)), s'.
  split.
  { unfold parse_sra_summary, reading. unfold_monad. rewrite Huids. simpl.
    rewrite Hloop. reflexivity. }
  assert (Hcols : union_keys (zip_with (fun uid vals => ("uid", uid) :: zip sequencing_fields vals)
                                       uids valss)
                  = if is_nonempty uids then sequencing_columns else []).
  { rewrite (union_keys_uniform sequencing_columns); [| done | done |].
    - by destruct Hlen.
    - clear -Hlen. induction Hlen as [|uid vals uids valss Hl _ IH]; constructor; [|done].
      do 16 (destruct vals as [|? vals]; [discriminate|]).
      by destruct vals. }
  split; [exact Hcols|]. rewrite given_of_frame, Hcols.
  destruct Hlen as [|uid vals uids valss Hl Hrest]; [done|].
  cbn [is_nonempty]. apply sequencing_rows_cells. by constructor.
Qed.

Lemma parse_sra_summary_rows_witness :
  exists df summary',
    parse_sra_summary Fixtures.xml_parser Fixtures.no_repr Fixtures.summary_runs
    = (Ok df, summary')
    /\ columns df = (if is_nonempty [JStr "777"] then sequencing_columns else [])
    /\ map (map given) (data df)
       = zip_with (fun uid vals => Some uid :: map Some vals)
                  [JStr "777"] [Scenarios.sequencing_values].
Proof.
  apply (parse_sra_summary_rows Fixtures.xml_parser Fixtures.no_repr
           Fixtures.summary_runs [JStr "777"] [Scenarios.sequencing_values]).
  - reflexivity.
  - repeat constructor. set_solver.
  - constructor; [|constructor].
    exists (JStr Fixtures.expxml_text), (JStr Fixtures.runs_text),
      Fixtures.expxml_tree, Fixtures.runs_tree.
    split; [by split|]. split; [reflexivity|]. split; [reflexivity|].
    unfold sra_paths, Scenarios.sequencing_values.
    repeat (constructor; [reflexivity|]). constructor.
Defined.

(** ** What [parse_sra_summary] leaves alone *)

Lemma dict_keys_set_existing {V} (k : string) (v v0 : V) d :
  dict_get k d = Some v0 -> dict_keys (dict_set k v d) = dict_keys d.
Proof.
  unfold dict_keys. induction d as [|[k' v'] d IH]; simpl; [done|].
  destruct (String.eqb k k') eqn:E; simpl; [done|].
  intros H. f_equal. by apply IH.
Qed.

Section Untouched.

Variable xmltodict_parse : json -> result json.
Variable py_repr : json -> string.

#[local] Abbreviation step := (sra_step xmltodict_parse py_repr).
#[local] Abbreviation loop := (sra_loop xmltodict_parse py_repr).
#[local] Abbreviation parse := (parse_sra_summary xmltodict_parse py_repr).

(** A step changes at most the record of its identifier, which was a
    dictionary and stays one. *)
Lemma sra_step_shape uid d res s1 :
  step uid (JDict d) = (res, s1) ->
  s1 = JDict d
  \/ exists u rd rd',
       uid = JStr u /\ dict_get u d = Some (JDict rd)
       /\ s1 = JDict (dict_set u (JDict rd') d).
Proof.
  rewrite sra_step_unfold.
  destruct (getpath (JDict d) [uid; JStr "expxml"]) as [x|];
    [|intros [= _ <-]; by left].
  destruct (expxml_parse xmltodict_parse py_repr x) as [tx|];
    [|intros [= _ <-]; by left].
  destruct (setitem_at uid "expxml" tx (JDict d)) as [res0 s0] eqn:Hset.
  apply setitem_at_inv in Hset
    as [(e & -> & ->)|(u & rd & -> & Hu & -> & ->)]; [intros [= _ <-]; by left|].
  assert (Hfirst : exists rd', JDict (dict_set u (JDict (dict_set "expxml" tx rd)) d)
                               = JDict (dict_set u (JDict rd') d)) by eauto.
  destruct (getpath _ [JStr u; JStr "runs"]) as [r|];
    [|intros [= _ <-]; right; destruct Hfirst as [rd' ->]; by exists u, rd, rd'].
  destruct (xmltodict_parse r) as [tr|];
    [|intros [= _ <-]; right; destruct Hfirst as [rd' ->]; by exists u, rd, rd'].
  destruct (setitem_at (JStr u) "runs" tr _) as [res2 s2] eqn:Hset2.
  apply setitem_at_inv in Hset2
    as [(e & -> & ->)|(u' & rd2 & [= <-] & Hu' & -> & ->)];
    [intros [= _ <-]; right; destruct Hfirst as [rd' ->]; by exists u, rd, rd'|].
  intros [= _ <-]. right. rewrite dict_set_set. by eexists u, rd, _.
Qed.

Lemma sra_step_kept uid d d1 res s2 :
  kept d d1 ->
  step uid (JDict d1) = (res, s2) ->
  exists d2, s2 = JDict d2 /\ kept d d2.
Proof.
  intros [Hkeys Hvals] Hstep.
  apply sra_step_shape in Hstep as [->|(u & rd & rd' & -> & Hu & ->)].
  - by exists d1.
  - eexists. split; [done|]. split.
    + by rewrite (dict_keys_set_existing _ _ _ _ Hu).
    + intros k v Hk Hv.
      destruct (String.eqb_spec u k) as [->|Hne].
      * rewrite (Hvals k v Hk Hv) in Hu. injection Hu as ->.
        destruct Hv. by eexists.
      * rewrite dict_get_set_ne by done. by apply Hvals.
Qed.

Lemma sra_loop_kept uids :
  forall parsed d d1 res s',
    kept d d1 ->
    loop uids parsed (JDict d1) = (res, s') ->
    exists d', s' = JDict d' /\ kept d d'.
Proof.
  induction uids as [|uid uids IH]; intros parsed d d1 res s' Hk; simpl.
  { intros [= _ <-]. by exists d1. }
  unfold_monad.
  destruct (step uid (JDict d1)) as [[row|e] s2] eqn:Hs.
  - destruct (sra_step_kept _ _ _ _ _ Hk Hs) as (d2 & -> & Hk2).
    by apply IH.
  - intros [= _ <-]. by eapply sra_step_kept.
Qed.

Lemma sra_loop_unlisted uid uids :
  forall parsed d res s',
    loop uids parsed (JDict d) = (res, s') ->
    uid ∉ uids ->
    getitem s' uid = getitem (JDict d) uid.
Proof.
  induction uids as [|uid0 uids IH]; intros parsed d res s' Hloop Hnin;
    simpl in Hloop.
  { by injection Hloop as _ <-. }
  unfold_monad. apply not_elem_of_cons in Hnin as [Hne Hnin].
  destruct (step uid0 (JDict d)) as [[row|e] s1] eqn:Hs.
  - destruct (sra_step_frame _ _ _ uid _ _ _ Hs (not_eq_sym Hne)) as [[d1 ->] Hsame].
    rewrite <- Hsame. by eapply IH.
  - injection Hloop as _ <-.
    by destruct (sra_step_frame _ _ _ uid _ _ _ Hs (not_eq_sym Hne)).
Qed.

End Untouched.

(** X7: whether it returns or raises, [parse_sra_summary] leaves the
    summary with the keys it had, in their order; an entry that is not a
    dictionary (the [uids] list among them) keeps its value, and so does
    every entry whose key [uids] does not list. *)
Theorem parse_sra_summary_leaves_alone
    (xmltodict_parse : json -> result json) (py_repr : json -> string)
    (summary summary' : json) (res : result DataFrame) (uids : list json) :
  parse_sra_summary xmltodict_parse py_repr summary = (res, summary') ->
  (getitem summary (JStr "uids") ≫= py_iter) = Ok uids ->
  summary_keys summary' = summary_keys summary
  /\ (forall k v, getitem summary k = Ok v -> ~ is_dict v -> getitem summary' k = Ok v)
  /\ (forall k, k ∉ uids -> getitem summary' k = getitem summary k).
Proof.
  intros Hparse Huids. revert Hparse.
  unfold parse_sra_summary, reading. unfold_monad.
  destruct (getitem summary (JStr "uids")) as [l|] eqn:Hl; [|discriminate].
  destruct (getitem_dict_inv _ _ _ Hl) as (d & -> & _).
  rewrite Huids.
  destruct (sra_loop xmltodict_parse py_repr uids [] (JDict d)) as [r s1] eqn:Hloop.
  intros Hres. assert (s1 = summary') as -> by (by destruct r; injection Hres).
  destruct (sra_loop_kept xmltodict_parse py_repr uids [] d d r summary')
    as (d' & -> & Hkeys & Hvals); [by split | done |].
  split; [done|]. split.
  - intros k v Hk Hv. apply getitem_key_inv in Hk as (u & -> & Hu).
    simpl. by rewrite (Hvals u v Hu Hv).
  - intros k Hk. by eapply sra_loop_unlisted.
Qed.

Lemma parse_sra_summary_leaves_alone_witness :
  summary_keys Fixtures.summary_runs_parsed = summary_keys Fixtures.summary_runs
  /\ (forall k v, getitem Fixtures.summary_runs k = Ok v -> ~ is_dict v ->
                  getitem Fixtures.summary_runs_parsed k = Ok v)
  /\ (forall k, k ∉ [JStr "777"] ->
                getitem Fixtures.summary_runs_parsed k = getitem Fixtures.summary_runs k).
Proof.
  eapply (parse_sra_summary_leaves_alone Fixtures.xml_parser Fixtures.no_repr
            Fixtures.summary_runs Fixtures.summary_runs_parsed).
  - vm_compute. reflexivity.
  - reflexivity.
Defined.

(** ** A sequencing summary that is unavailable *)

(** X8: when [SRA] targets were found and the summary request of the
    sequencing namespace meets a response that is not a success, the run
    raises [KeyError] on [uids]: the primary table that was already
    extracted is not returned. *)
Theorem sequencing_failure_raises
    (server : list string -> string -> reply)
    (xmltodict_parse : json -> result json) (py_repr : json -> string)
    (gse_id : string) (log log1 log2 : list string) (gse_summary : json)
    (microarray : DataFrame) (target : string) (targets ids : list string)
    (r : response) :
  sum_GSE server gse_id log = (Ok gse_summary, log1) ->
  parse_gse_summary gse_summary = Ok microarray ->
  find_relevant_srp gse_summary = Ok (map JStr (target :: targets)) ->
  entrez_search server SRA_DB_NAME (join_strs "+OR+" (target :: targets)) log1
  = (Ok (JList (map JStr ids)), log2) ->
  server log2 (ENTREZ_SUMMARY_URL SRA_DB_NAME (join_strs "," ids)) = Reply r ->
  ok r = false ->
  experiment_summary server xmltodict_parse py_repr gse_id log
  = (Raise (KeyError (JStr "uids")),
     log2 ++ [ENTREZ_SUMMARY_URL SRA_DB_NAME (join_strs "," ids)]).
Proof.
  intros Hsum Hm Hsrp Hsearch Hreply Hok.
  unfold experiment_summary. unfold_monad. rewrite Hsum, Hm, Hsrp.
  cbn [map is_nonempty].
  change (JStr target :: map JStr targets) with (map JStr (target :: targets)).
  unfold str_join. cbn [py_iter]. unfold_monad. rewrite all_strs_map, Hsearch.
  unfold entrez_summary, requests_get, str_join. cbn [py_iter]. unfold_monad.
  rewrite all_strs_map, Hreply, Hok. reflexivity.
Qed.

Lemma sequencing_failure_raises_witness :
  experiment_summary Scenarios.service_sra_down Fixtures.xml_parser Fixtures.no_repr
    "GSE1" []
  = (Raise (KeyError (JStr "uids")),
     [ENTREZ_SEARCH_URL "gds" "GSE1+AND+gse[ETYP]"; ENTREZ_SUMMARY_URL "gds" "12345";
      ENTREZ_SEARCH_URL "sra" "SRP999"]
     ++ [ENTREZ_SUMMARY_URL SRA_DB_NAME (join_strs "," ["777"])]).
Proof.
  eapply (sequencing_failure_raises Scenarios.service_sra_down Fixtures.xml_parser
            Fixtures.no_repr "GSE1" [] _ _ _ _ "SRP999" [] ["777"]
            {| status_code := 503; body := None |}).
  - vm_compute. reflexivity.
  - vm_compute. reflexivity.
  - vm_compute. reflexivity.
  - vm_compute. reflexivity.
  - vm_compute. reflexivity.
  - reflexivity.
Defined.

(** ** The writer and the directories *)








Lemma to_csv_state df path fs res fs' :
  to_csv df path fs = (res, fs') ->
  dirs fs' = dirs fs
  /\ forall p, p <> path -> files fs' !! p = files fs !! p.
Proof.
  unfold to_csv. case_bool_decide; intros [= _ <-]; [|done].
  split; [done|]. intros p Hp. simpl. by rewrite lookup_insert_ne.
Qed.

(** The two shapes of a composite result that [experiment_summary] returns. *)
Lemma experiment_summary_shape server xmltodict_parse py_repr gse_id log out log' :
  experiment_summary server xmltodict_parse py_repr gse_id log = (Ok out, log') ->
  exists microarray,
    out = [("gse_id", VStr gse_id); ("microarray", VFrame microarray)]
    \/ exists rnaseq,
         out = [("gse_id", VStr gse_id); ("microarray", VFrame microarray);
                ("rnaseq", VFrame rnaseq)].
Proof.
  intros H. apply experiment_summary_inv in H
    as (gse_summary & log1 & microarray & srp & _ & _ & _ & Hcases).
  exists microarray.
  destruct Hcases
    as [(_ & _ & ->)|(_ & term & ids & log2 & ss & rnaseq & ss' & _ & _ & _ & _ & ->)];
    [by left | right; by exists rnaseq].
Qed.

Ltac unfold_save :=
  unfold save_to_csv, lookup_key, frame_of, format_pyval, dict_has;
  unfold_monad; cbn [dict_get String.eqb Ascii.eqb Bool.eqb].





Ltac other_path Hp := intros ->; apply Hp; repeat constructor.

(** X11: whatever composite result it is given and whether it returns or
    raises, [save_to_csv] creates no directory and changes no file other
    than the two whose paths it builds from the [gse_id] entry. *)
Theorem save_to_csv_other_files
    (frame_repr : DataFrame -> string) (out : list (string * pyval))
    (fs fs' : filesystem) (res : result unit) :
  save_to_csv frame_repr out fs = (res, fs') ->
  dirs fs' = dirs fs
  /\ forall p, p ∉ written_paths frame_repr out -> files fs' !! p = files fs !! p.
Proof.
  unfold save_to_csv, written_paths, lookup_key. unfold_monad.
  destruct (dict_get "microarray" out) as [m|]; [|by intros [= _ <-]].
  destruct (frame_of m) as [mdf|]; simpl; [|by intros [= _ <-]].
  destruct (dict_get "gse_id" out) as [g|]; [|by intros [= _ <-]].
  destruct (to_csv mdf _ fs) as [[[]|e] fs1] eqn:Hw1; [|intros [= _ <-]].
  - apply to_csv_state in Hw1 as [Hd1 Hf1].
    destruct (dict_has "rnaseq" out).
    + destruct (dict_get "rnaseq" out) as [r|]; [|intros [= _ <-]].
      * destruct (frame_of r) as [rdf|]; simpl; [|intros [= _ <-]].
        -- intros Hw2. apply to_csv_state in Hw2 as [Hd2 Hf2].
           split; [congruence|]. intros p Hp.
           rewrite Hf2, Hf1; [done | other_path Hp | other_path Hp].
        -- split; [done|]. intros p Hp. apply Hf1. other_path Hp.
      * split; [done|]. intros p Hp. apply Hf1. other_path Hp.
    + intros [= _ <-]. split; [done|]. intros p Hp. apply Hf1. other_path Hp.
  - apply to_csv_state in Hw1 as [Hd1 Hf1].
    split; [done|]. intros p Hp. apply Hf1. other_path Hp.
Qed.

Lemma save_to_csv_other_files_witness :
  dirs Fixtures.saved_gse1 = dirs Fixtures.results_dirs
  /\ forall p, p ∉ written_paths Fixtures.no_frame_repr Fixtures.composite_gse1 ->
               files Fixtures.saved_gse1 !! p = files Fixtures.results_dirs !! p.
Proof.
  eapply (save_to_csv_other_files Fixtures.no_frame_repr Fixtures.composite_gse1
            Fixtures.results_dirs Fixtures.saved_gse1).
  vm_compute. reflexivity.
Defined.

Lemma filesystem_eq (fs1 fs2 : filesystem) :
  dirs fs1 = dirs fs2 -> files fs1 = files fs2 -> fs1 = fs2.
Proof. destruct fs1, fs2. simpl. by intros -> ->. Qed.

(** X12: saving again what has just been saved changes nothing: after a
    call of [save_to_csv] that returns, a second call on the same composite
    result returns too and leaves the file system as it is. *)
Theorem save_to_csv_again
    (frame_repr : DataFrame -> string) (out : list (string * pyval))
    (fs fs' : filesystem) :
  save_to_csv frame_repr out fs = (Ok tt, fs') ->
  save_to_csv frame_repr out fs' = (Ok tt, fs').
Proof.
  unfold save_to_csv, lookup_key. unfold_monad.
  destruct (dict_get "microarray" out) as [m|]; [|discriminate].
  destruct (frame_of m) as [mdf|]; simpl; [|discriminate].
  destruct (dict_get "gse_id" out) as [g|]; [|discriminate].
  set (mpath := MICROARRAY_PATH (format_pyval frame_repr g)).
  set (rpath := RNASEQ_PATH (format_pyval frame_repr g)).
  assert (Hdiff : mpath <> rpath) by apply paths_differ.
  unfold to_csv at 1. case_bool_decide as Hm; [|discriminate].
  destruct (dict_has "rnaseq" out).
  - destruct (dict_get "rnaseq" out) as [r|]; [|discriminate].
    destruct (frame_of r) as [rdf|]; simpl; [|discriminate].
    unfold to_csv at 1. simpl. case_bool_decide as Hr; [|discriminate].
    intros [= <-]. unfold to_csv. simpl.
    rewrite !bool_decide_eq_true_2 by done. f_equal.
    apply filesystem_eq; [done|]. simpl.
    apply map_eq. intros p. rewrite !lookup_insert. by repeat case_decide.
  - intros [= <-]. unfold to_csv. simpl.
    rewrite bool_decide_eq_true_2 by done. f_equal.
    apply filesystem_eq; [done|]. simpl. by rewrite insert_insert_eq.
Qed.

Lemma save_to_csv_again_witness :
  save_to_csv Fixtures.no_frame_repr Fixtures.composite_gse1 Fixtures.saved_gse1
  = (Ok tt, Fixtures.saved_gse1).
Proof.
  apply (save_to_csv_again Fixtures.no_frame_repr Fixtures.composite_gse1
           Fixtures.results_dirs Fixtures.saved_gse1).
  vm_compute. reflexivity.
Defined.

(** ** The entry point *)

Section Main.

Variable server : list string -> string -> reply.
Variable xmltodict_parse : json -> result json.
Variable py_repr : json -> string.
Variable frame_repr : DataFrame -> string.

#[local] Abbreviation pipeline := (experiment_summary server xmltodict_parse py_repr).
#[local] Abbreviation save := (save_to_csv frame_repr).
#[local] Abbreviation process :=
  (run_and_save server xmltodict_parse py_repr frame_repr).

Lemma run_and_save_inv gse_id w w' :
  process gse_id w = (Ok tt, w') ->
  exists out,
    pipeline gse_id w.1 = (Ok out, w'.1)
    /\ save out w.2 = (Ok tt, w'.2).
Proof.
  unfold run_and_save.
  destruct (pipeline gse_id w.1) as [[out|e] log'] eqn:Hrun; [|discriminate].
  destruct (save out w.2) as [r fs'] eqn:Hsave.
  intros [= -> <-]. by exists out.
Qed.

(** A save of a composite result of the pipeline that returns has written
    its tables, and has left the directories and every file but the two of
    its identifier as they were. *)
Lemma save_pipeline_output gse_id log out log' fs fs' :
  pipeline gse_id log = (Ok out, log') ->
  save out fs = (Ok tt, fs') ->
  holds_tables fs' gse_id out
  /\ dirs fs' = dirs fs
  /\ forall p, p <> MICROARRAY_PATH gse_id -> p <> RNASEQ_PATH gse_id ->
               files fs' !! p = files fs !! p.
Proof.
  intros Hrun Hsave.
  apply experiment_summary_shape in Hrun as [microarray [->|[rnaseq ->]]];
    revert Hsave; unfold_save.
  - destruct (to_csv microarray _ fs) as [[[]|] fs1] eqn:Hw; [|discriminate].
    intros [= <-]. pose proof (to_csv_inv _ _ _ _ Hw) as Hf.
    apply to_csv_state in Hw as [Hd Ho].
    split; [|split; [done|]].
    + split; [|done]. exists microarray. split; [done|].
      by rewrite Hf, lookup_insert_eq.
    + intros p Hp _. by apply Ho.
  - destruct (to_csv microarray _ fs) as [[[]|] fs1] eqn:Hw; [|discriminate].
    intros Hw2. pose proof (to_csv_inv _ _ _ _ Hw) as Hf.
    pose proof (to_csv_inv _ _ _ _ Hw2) as Hf2.
    apply to_csv_state in Hw as [Hd Ho].
    apply to_csv_state in Hw2 as [Hd2 Ho2].
    split; [|split; [congruence|]].
    + split.
      * exists microarray. split; [done|].
        rewrite Ho2 by apply paths_differ. by rewrite Hf, lookup_insert_eq.
      * intros v [= <-]. exists rnaseq. split; [done|].
        by rewrite Hf2, lookup_insert_eq.
    + intros p Hp Hp'. rewrite Ho2 by done. by apply Ho.
Qed.

(** Tables stay in their files as long as the two files are not touched. *)
Lemma holds_tables_kept fs fs' gse_id out :
  holds_tables fs gse_id out ->
  files fs' !! MICROARRAY_PATH gse_id = files fs !! MICROARRAY_PATH gse_id ->
  files fs' !! RNASEQ_PATH gse_id = files fs !! RNASEQ_PATH gse_id ->
  holds_tables fs' gse_id out.
Proof.
  intros [(m & Hm & Hfm) Hr] Hsm Hsr. split.
  - exists m. split; [done|]. by rewrite Hsm.
  - intros v Hv. destruct (Hr v Hv) as (r & -> & Hfr).
    exists r. split; [done|]. by rewrite Hsr.
Qed.

End Main.

Ltac distinct_paths := intros Heq; vm_compute in Heq; discriminate.

(** X13: [main] has no isolation between identifiers: when the summary
    request for the first identifier meets a response that is not a
    success, it raises [KeyError] on [uids] after these two requests; no
    file is written and nothing is requested for the other two
    identifiers. *)
Theorem main_stops_at_first_failure
    (server : list string -> string -> reply)
    (xmltodict_parse : json -> result json) (py_repr : json -> string)
    (frame_repr : DataFrame -> string)
    (log log1 : list string) (fs : filesystem) (ids : list string) (r : response) :
  entrez_search server GSE_DB_NAME ("GSE89408" +:+ "+AND+gse[ETYP]") log
  = (Ok (JList (map JStr ids)), log1) ->
  server log1 (ENTREZ_SUMMARY_URL GSE_DB_NAME (join_strs "," ids)) = Reply r ->
  ok r = false ->
  main server xmltodict_parse py_repr frame_repr (log, fs)
  = (Raise (KeyError (JStr "uids")),
     (log1 ++ [ENTREZ_SUMMARY_URL GSE_DB_NAME (join_strs "," ids)], fs)).
Proof.
  intros Hsearch Hreply Hok. unfold main, run_and_save. unfold_monad.
  cbn [fst snd].
  by rewrite (summarize_failure_raises server xmltodict_parse py_repr
                "GSE89408" log log1 ids r Hsearch Hreply Hok).
Qed.

Lemma main_stops_at_first_failure_witness :
  main Scenarios.service_down Fixtures.xml_parser Fixtures.no_repr
    Fixtures.no_frame_repr ([], Fixtures.results_dirs)
  = (Raise (KeyError (JStr "uids")),
     ([ENTREZ_SEARCH_URL "gds" "GSE89408+AND+gse[ETYP]"]
      ++ [ENTREZ_SUMMARY_URL GSE_DB_NAME (join_strs "," [])],
      Fixtures.results_dirs)).
Proof.
  apply (main_stops_at_first_failure Scenarios.service_down Fixtures.xml_parser
           Fixtures.no_repr Fixtures.no_frame_repr [] _ Fixtures.results_dirs []
           {| status_code := 503; body := None |}).
  - reflexivity.
  - reflexivity.
  - reflexivity.
Defined.

(** X14: when [main] returns, each of the three identifiers has been run
    in turn, and at the end the files of every identifier hold the tables
    of its own composite result: the six paths are distinct, so a later
    identifier does not overwrite the files of an earlier one.  No
    directory has been created, and no file other than these six has
    changed. *)
Theorem main_writes_every_table
    (server : list string -> string -> reply)
    (xmltodict_parse : json -> result json) (py_repr : json -> string)
    (frame_repr : DataFrame -> string)
    (w w' : list string * filesystem) :
  main server xmltodict_parse py_repr frame_repr w = (Ok tt, w') ->
  (exists out1 out2 out3 log1 log2,
     experiment_summary server xmltodict_parse py_repr "GSE89408" w.1 = (Ok out1, log1)
     /\ experiment_summary server xmltodict_parse py_repr "GSE59847" log1 = (Ok out2, log2)
     /\ experiment_summary server xmltodict_parse py_repr "GSE40598" log2 = (Ok out3, w'.1)
     /\ holds_tables w'.2 "GSE89408" out1
     /\ holds_tables w'.2 "GSE59847" out2
     /\ holds_tables w'.2 "GSE40598" out3)
  /\ NoDup (map MICROARRAY_PATH main_identifiers ++ map RNASEQ_PATH main_identifiers)
  /\ dirs w'.2 = dirs w.2
  /\ (forall p, p ∉ map MICROARRAY_PATH main_identifiers ->
                p ∉ map RNASEQ_PATH main_identifiers ->
                files w'.2 !! p = files w.2 !! p).
Proof.
  unfold main. unfold_monad.
  destruct (run_and_save _ _ _ _ "GSE89408" w) as [[[]|] w1] eqn:H1; [|discriminate].
  destruct (run_and_save _ _ _ _ "GSE59847" w1) as [[[]|] w2] eqn:H2; [|discriminate].
  intros H3.
  apply run_and_save_inv in H1 as (out1 & Hr1 & Hs1).
  apply run_and_save_inv in H2 as (out2 & Hr2 & Hs2).
  apply run_and_save_inv in H3 as (out3 & Hr3 & Hs3).
  destruct (save_pipeline_output _ _ _ _ _ _ _ _ _ _ Hr1 Hs1) as (Ht1 & Hd1 & Ho1).
  destruct (save_pipeline_output _ _ _ _ _ _ _ _ _ _ Hr2 Hs2) as (Ht2 & Hd2 & Ho2).
  destruct (save_pipeline_output _ _ _ _ _ _ _ _ _ _ Hr3 Hs3) as (Ht3 & Hd3 & Ho3).
  split; [|split; [|split; [congruence|]]].
  - exists out1, out2, out3, w1.1, w2.1. do 3 (split; [done|]).
    split; [|split; [|done]].
    + apply (holds_tables_kept w1.2); [done | |];
        rewrite Ho3, Ho2 by distinct_paths; done.
    + apply (holds_tables_kept w2.2); [done | |];
        rewrite Ho3 by distinct_paths; done.
  - refine (@bool_decide_unpack _ (NoDup_dec _) _). vm_compute. exact I.
  - intros p Hpm Hpr.
    assert (Hne : forall gse_id, gse_id ∈ main_identifiers ->
              p <> MICROARRAY_PATH gse_id /\ p <> RNASEQ_PATH gse_id).
    { intros gse_id Hin. split; intros ->.
      - apply Hpm. by apply list_elem_of_fmap_2.
      - apply Hpr. by apply list_elem_of_fmap_2. }
    rewrite Ho3, Ho2, Ho1; [done | ..];
      apply Hne; unfold main_identifiers; repeat constructor.
Qed.

Lemma main_writes_every_table_witness :
  (exists out1 out2 out3 log1 log2,
     experiment_summary Scenarios.service_three Fixtures.xml_parser Fixtures.no_repr
       "GSE89408" (@nil string, Fixtures.results_dirs).1 = (Ok out1, log1)
     /\ experiment_summary Scenarios.service_three Fixtures.xml_parser Fixtures.no_repr
          "GSE59847" log1 = (Ok out2, log2)
     /\ experiment_summary Scenarios.service_three Fixtures.xml_parser Fixtures.no_repr
          "GSE40598" log2 = (Ok out3, Scenarios.after_main_three.1)
     /\ holds_tables Scenarios.after_main_three.2 "GSE89408" out1
     /\ holds_tables Scenarios.after_main_three.2 "GSE59847" out2
     /\ holds_tables Scenarios.after_main_three.2 "GSE40598" out3)
  /\ NoDup (map MICROARRAY_PATH main_identifiers ++ map RNASEQ_PATH main_identifiers)
  /\ dirs Scenarios.after_main_three.2 = dirs (@nil string, Fixtures.results_dirs).2
  /\ (forall p, p ∉ map MICROARRAY_PATH main_identifiers ->
                p ∉ map RNASEQ_PATH main_identifiers ->
                files Scenarios.after_main_three.2 !! p
                = files (@nil string, Fixtures.results_dirs).2 !! p).
Proof.
  apply (main_writes_every_table Scenarios.service_three Fixtures.xml_parser
           Fixtures.no_repr Fixtures.no_frame_repr (@nil string, Fixtures.results_dirs)
           Scenarios.after_main_three).
  vm_compute. reflexivity.
Defined.
